(** * Calendar slicer: the date-selection state machine of [src/visual.ts]

    A shallow embedding of the selection logic of the [Visual] class
    (data loading, click handling, filter emission, ISO parsing, ISO week
    numbers and the day grid), together with the part of the ECMAScript
    [Date] built-ins that the class calls. *)

From Stdlib Require Import ZArith Lia Bool Ascii String.
From stdpp Require Import base option list gmap.

Local Open Scope Z_scope.

(** ** JavaScript numbers as the program uses them

    Every number that reaches the selection logic is an integer of magnitude
    far below 2^53 (a time value, a calendar field, a small count) or [NaN];
    on that range IEEE doubles are exact, so a number is an integer or
    [NaN]. *)

Abbreviation number := (option Z).
Definition NaN : number := None.

(** [a < b] and [a <= b] on numbers: false as soon as one side is [NaN]. *)
Definition num_lt (a b : number) : bool :=
  match a, b with Some x, Some y => x <? y | _, _ => false end.
Definition num_le (a b : number) : bool :=
  match a, b with Some x, Some y => x <=? y | _, _ => false end.
Definition num_add (a b : number) : number :=
  x ← a; y ← b; Some (x + y).
Definition num_sub (a b : number) : number :=
  x ← a; y ← b; Some (x - y).
Definition isNaN (a : number) : bool :=
  match a with None => true | Some _ => false end.
(** [Math.max] and [Math.min] on two arguments. *)
Definition Math_max (a b : number) : number :=
  x ← a; y ← b; Some (Z.max x y).
Definition Math_min (a b : number) : number :=
  x ← a; y ← b; Some (Z.min x y).

(** ** The ECMAScript date algorithms (ECMA-262, "Date Objects")

    Time values are milliseconds since 1970-01-01T00:00Z. *)

Module ES.

Definition msPerDay : Z := 86400000.
Definition maxTime : Z := 8640000000000000.

Definition Day (t : Z) : Z := t / msPerDay.
Definition TimeWithinDay (t : Z) : Z := t mod msPerDay.

Definition DaysInYear (y : Z) : Z :=
  if negb (y mod 4 =? 0) then 365
  else if negb (y mod 100 =? 0) then 366
  else if negb (y mod 400 =? 0) then 365
  else 366.

Definition DayFromYear (y : Z) : Z :=
  365 * (y - 1970) + (y - 1969) / 4 - (y - 1901) / 100 + (y - 1601) / 400.

Definition TimeFromYear (y : Z) : Z := msPerDay * DayFromYear y.

(** The year of a day number: ECMA-262 defines it as the largest [y] with
    [DayFromYear y <= d]; it is computed here from the mean year length and
    one correction step (lemma [YearFromDay_spec] relates the two). *)
Definition YearFromDay (d : Z) : Z :=
  let y0 := 1970 + (400 * d) / 146097 in
  if d <? DayFromYear y0 then y0 - 1
  else if DayFromYear (y0 + 1) <=? d then y0 + 1
  else y0.

Definition YearFromTime (t : Z) : Z := YearFromDay (Day t).

Definition InLeapYear (t : Z) : Z :=
  if DaysInYear (YearFromTime t) =? 365 then 0 else 1.

Definition DayWithinYear (t : Z) : Z := Day t - DayFromYear (YearFromTime t).

Definition MonthFromTime (t : Z) : Z :=
  let d := DayWithinYear t in
  let l := InLeapYear t in
  if d <? 31 then 0
  else if d <? 59 + l then 1
  else if d <? 90 + l then 2
  else if d <? 120 + l then 3
  else if d <? 151 + l then 4
  else if d <? 181 + l then 5
  else if d <? 212 + l then 6
  else if d <? 243 + l then 7
  else if d <? 273 + l then 8
  else if d <? 304 + l then 9
  else if d <? 334 + l then 10
  else 11.

Definition DateFromTime (t : Z) : Z :=
  let d := DayWithinYear t in
  let l := InLeapYear t in
  match MonthFromTime t with
  | 0 => d + 1
  | 1 => d - 30
  | 2 => d - 58 - l
  | 3 => d - 89 - l
  | 4 => d - 119 - l
  | 5 => d - 150 - l
  | 6 => d - 180 - l
  | 7 => d - 211 - l
  | 8 => d - 242 - l
  | 9 => d - 272 - l
  | 10 => d - 303 - l
  | _ => d - 333 - l
  end.

Definition WeekDay (t : Z) : Z := (Day t + 4) mod 7.

(** Day offset of the first of month [m] (0-based) inside year [y]. *)
Definition MonthStart (y m : Z) : Z :=
  let l := if DaysInYear y =? 365 then 0 else 1 in
  match m with
  | 0 => 0
  | 1 => 31
  | 2 => 59 + l
  | 3 => 90 + l
  | 4 => 120 + l
  | 5 => 151 + l
  | 6 => 181 + l
  | 7 => 212 + l
  | 8 => 243 + l
  | 9 => 273 + l
  | 10 => 304 + l
  | _ => 334 + l
  end.

(** [MakeDay]: months carry into the year, the date may over- or underflow
    the month.  The day of the first of the month is found directly
    (lemma [MakeDay_first_of_month] checks it against the three field
    functions); a result outside the time range is rejected by [TimeClip]. *)
Definition MakeDay (year month date : Z) : Z :=
  let ym := year + month / 12 in
  let mn := month mod 12 in
  DayFromYear ym + MonthStart ym mn + date - 1.

Definition MakeDate (day time : Z) : Z := day * msPerDay + time.

Definition TimeClip (t : Z) : number :=
  if maxTime <? Z.abs t then NaN else Some t.

Definition MakeFullYear (y : Z) : Z :=
  if (0 <=? y) && (y <=? 99) then 1900 + y else y.

End ES.

(** ** [Date] objects

    A [Date] object is its time value ([NaN] for an invalid date). *)

Record JSDate : Type := mkDate { getTime : number }.

(** [new Date(value)] for a number. *)
Definition newDate (value : number) : JSDate := mkDate (value ≫= ES.TimeClip).

Definition getUTCFullYear (d : JSDate) : number := ES.YearFromTime <$> getTime d.
Definition getUTCMonth (d : JSDate) : number := ES.MonthFromTime <$> getTime d.
Definition getUTCDate (d : JSDate) : number := ES.DateFromTime <$> getTime d.
Definition getUTCDay (d : JSDate) : number := ES.WeekDay <$> getTime d.

(** [Date.UTC(year, month, date)]: years 0..99 mean 1900..1999. *)
Definition Date_UTC (year month date : number) : number :=
  y ← year; m ← month; dt ← date;
  ES.TimeClip (ES.MakeDate (ES.MakeDay (ES.MakeFullYear y) m dt) 0).

(** [d.setUTCDate(date)]: the date object after the call. *)
Definition setUTCDate (d : JSDate) (date : number) : JSDate :=
  match getTime d with
  | None => d
  | Some t =>
      mkDate (dt ← date;
              ES.TimeClip (ES.MakeDate (ES.MakeDay (ES.YearFromTime t) (ES.MonthFromTime t) dt)
                                       (ES.TimeWithinDay t)))
  end.

(** ** Strings as sequences of UTF-16 code units *)

Abbreviation js_string := (list N).

(** The code units of an ASCII literal. *)
Definition str (s : string) : js_string := N_of_ascii <$> list_ascii_of_string s.

(** [\s] of a regular expression: white space and line terminators. *)
Definition is_space (c : N) : bool :=
  bool_decide (c ∈ [9; 10; 11; 12; 13; 32; 160; 5760; 8232; 8233; 8239; 8287; 12288; 65279]%N)
  || ((8192 <=? c)%N && (c <=? 8202)%N).

(** [\d]: the ten ASCII digits. *)
Definition is_digit (c : N) : bool := (48 <=? c)%N && (c <=? 57)%N.

Fixpoint skip_spaces (s : js_string) : js_string :=
  match s with
  | c :: r => if is_space c then skip_spaces r else s
  | [] => []
  end.

(** [\d{n}] at the head of [s]: the digits and the rest. *)
Definition take_digits (n : nat) (s : js_string) : option (js_string * js_string) :=
  let ds := take n s in
  if bool_decide (length ds = n) && forallb is_digit ds then Some (ds, drop n s) else None.

Definition expect (c : N) (s : js_string) : option js_string :=
  match s with
  | x :: r => if (x =? c)%N then Some r else None
  | [] => None
  end.

(** [/^\s*(\d{4})\-(\d{2})\-(\d{2})\s*$/.exec(s)]: the three groups.
    White space and digits are disjoint, so the greedy [\s*] never has to
    give a character back. *)
Definition iso_exec (s : js_string) : option (js_string * js_string * js_string) :=
  '(y, s1) ← take_digits 4 (skip_spaces s);
  s2 ← expect 45 s1;
  '(m, s3) ← take_digits 2 s2;
  s4 ← expect 45 s3;
  '(d, s5) ← take_digits 2 s4;
  if forallb is_space s5 then Some (y, m, d) else None.

(** [parseInt(s, 10)]: leading white space, an optional sign, then the
    longest run of digits; [NaN] when there is no digit. *)
Definition digits_value (ds : js_string) : Z :=
  foldl (λ acc c, 10 * acc + (Z.of_N c - 48)) 0 ds.

Fixpoint digit_prefix (s : js_string) : js_string :=
  match s with
  | c :: r => if is_digit c then c :: digit_prefix r else []
  | [] => []
  end.

Definition parseInt10 (s : js_string) : number :=
  let s := skip_spaces s in
  let '(sign, s) :=
    match s with
    | 45%N :: r => (-1, r)
    | 43%N :: r => (1, r)
    | _ => (1, s)
    end in
  match digit_prefix s with
  | [] => NaN
  | ds => Some (sign * digits_value ds)
  end.

(** [s.lastIndexOf(c)] for a one-unit needle, [-1] when absent. *)
Fixpoint lastIndexOf_from (c : N) (s : js_string) (i acc : Z) : Z :=
  match s with
  | x :: r => lastIndexOf_from c r (i + 1) (if (x =? c)%N then i else acc)
  | [] => acc
  end.
Definition lastIndexOf (c : N) (s : js_string) : Z := lastIndexOf_from c s 0 (-1).

(** ** [Set<number>] in insertion order

    [has], [add] and [delete] compare with SameValueZero, under which [NaN]
    equals itself; [forEach] visits the members in insertion order. *)

Abbreviation JSSet := (list number).

Definition set_has (k : number) (s : JSSet) : bool := bool_decide (k ∈ s).
Definition set_add (k : number) (s : JSSet) : JSSet := if set_has k s then s else s ++ [k].
Definition set_delete (k : number) (s : JSSet) : JSSet := filter (λ x, x ≠ k) s.
Definition set_add_all (keys : list number) (s : JSSet) : JSSet :=
  foldl (λ acc k, set_add k acc) s keys.

(** ** The visual's state *)

Inductive ViewMode : Type := view_day | view_month | view_year.
Inductive WeekStart : Type := Sunday | Monday.

Record CalendarSettings : Type := {
  startOfWeek : WeekStart;
  showWeekNumbers : bool;
  otherMonthFade : bool;
  showDOWHeader : bool
}.

Record SelectionSettings : Type := {
  multiSelect : bool;
  rangeSelect : bool;
  stickySelection : bool
}.

Record DateRangeSettings : Type := {
  respectDataRange : bool;
  minDate : option js_string;
  maxDate : option js_string
}.

Record FilterTarget : Type := { table : js_string; column : js_string }.

(** The fields of [Visual] that the selection logic reads or writes.  The
    DOM elements and the header and item styling take no part in it.
    [identitiesByKey] holds, for a key, the row index its selection id was
    built from. *)
Record Visual : Type := {
  viewMode : ViewMode;
  cursorYear : Z;
  cursorMonth : Z;
  selectedKeys : JSSet;
  lastClickedKey : option number;
  settings : CalendarSettings;
  selectionSettings : SelectionSettings;
  dateRange : DateRangeSettings;
  identitiesByKey : gmap number nat;
  selectableKeys : JSSet;
  minDataKey : option number;
  maxDataKey : option number;
  filterTarget : option FilterTarget
}.

(** The field initialisers of the class; [today] is the local year and
    month of [new Date()]. *)
Definition initial (today : Z * Z) : Visual := {|
  viewMode := view_day;
  cursorYear := today.1;
  cursorMonth := today.2;
  selectedKeys := [];
  lastClickedKey := None;
  settings := {| startOfWeek := Monday; showWeekNumbers := false;
                 otherMonthFade := true; showDOWHeader := false |};
  selectionSettings := {| multiSelect := true; rangeSelect := true; stickySelection := true |};
  dateRange := {| respectDataRange := true; minDate := None; maxDate := None |};
  identitiesByKey := ∅;
  selectableKeys := [];
  minDataKey := None;
  maxDataKey := None;
  filterTarget := None
|}.

Definition with_selection (sel : JSSet) (st : Visual) : Visual := {|
  viewMode := viewMode st; cursorYear := cursorYear st; cursorMonth := cursorMonth st;
  selectedKeys := sel;
  lastClickedKey := lastClickedKey st;
  settings := settings st; selectionSettings := selectionSettings st;
  dateRange := dateRange st; identitiesByKey := identitiesByKey st;
  selectableKeys := selectableKeys st; minDataKey := minDataKey st;
  maxDataKey := maxDataKey st; filterTarget := filterTarget st
|}.

Definition with_lastClicked (k : option number) (st : Visual) : Visual := {|
  viewMode := viewMode st; cursorYear := cursorYear st; cursorMonth := cursorMonth st;
  selectedKeys := selectedKeys st;
  lastClickedKey := k;
  settings := settings st; selectionSettings := selectionSettings st;
  dateRange := dateRange st; identitiesByKey := identitiesByKey st;
  selectableKeys := selectableKeys st; minDataKey := minDataKey st;
  maxDataKey := maxDataKey st; filterTarget := filterTarget st
|}.

(** ** What the host receives *)

Inductive FilterAction : Type := merge | remove.

(** The object literal built in [applyFilterForKeys] (its [$schema] is a
    constant). *)
Record BasicFilter : Type := {
  target : FilterTarget;
  operator : string;
  values : list JSDate
}.

(** [host.applyJsonFilter(filter, "general", "filter", action)]; [None] is
    the [null] filter. *)
Inductive HostCall : Type :=
  | applyJsonFilter (filter : option BasicFilter) (action : FilterAction).

(** ** Settings *)

(** The entries of [dv.metadata.objects] that [readSettings] copies into
    the three semantic setting groups; [None] is an absent (or wrongly
    typed) entry.  A [startOfWeek] that is not ['Monday'] acts as Sunday
    wherever it is read. *)
Record MetadataObjects : Type := {
  o_startOfWeek : option WeekStart;
  o_showWeekNumbers : option bool;
  o_otherMonthFade : option bool;
  o_showDOWHeader : option bool;
  o_multiSelect : option bool;
  o_rangeSelect : option bool;
  o_stickySelection : option bool;
  o_respectDataRange : option bool;
  o_minDate : option js_string;
  o_maxDate : option js_string
}.

Definition readSettings (o : MetadataObjects) (st : Visual) : Visual := {|
  viewMode := viewMode st; cursorYear := cursorYear st; cursorMonth := cursorMonth st;
  selectedKeys := selectedKeys st;
  lastClickedKey := lastClickedKey st;
  settings := {|
    startOfWeek := default (startOfWeek (settings st)) (o_startOfWeek o);
    showWeekNumbers := default (showWeekNumbers (settings st)) (o_showWeekNumbers o);
    otherMonthFade := default (otherMonthFade (settings st)) (o_otherMonthFade o);
    showDOWHeader := default (showDOWHeader (settings st)) (o_showDOWHeader o) |};
  selectionSettings := {|
    multiSelect := default (multiSelect (selectionSettings st)) (o_multiSelect o);
    rangeSelect := default (rangeSelect (selectionSettings st)) (o_rangeSelect o);
    stickySelection := default (stickySelection (selectionSettings st)) (o_stickySelection o) |};
  dateRange := {|
    respectDataRange := default (respectDataRange (dateRange st)) (o_respectDataRange o);
    minDate := match o_minDate o with Some s => Some s | None => minDate (dateRange st) end;
    maxDate := match o_maxDate o with Some s => Some s | None => maxDate (dateRange st) end |};
  identitiesByKey := identitiesByKey st;
  selectableKeys := selectableKeys st; minDataKey := minDataKey st;
  maxDataKey := maxDataKey st; filterTarget := filterTarget st
|}.

(** ** Parsing and loading *)

Definition parseISODate (s : option js_string) : option JSDate :=
  match s with
  | None | Some [] => None
  | Some s =>
      match iso_exec s with
      | None => None
      | Some (m1, m2, m3) =>
          let d := newDate (Date_UTC (parseInt10 m1) (num_sub (parseInt10 m2) (Some 1))
                                     (parseInt10 m3)) in
          if isNaN (getTime d) then None else Some d
      end
  end.

Definition atUTC (date : JSDate) : number :=
  Date_UTC (getUTCFullYear date) (getUTCMonth date) (getUTCDate date).

(** A value of the category column. *)
Inductive raw_value : Type :=
  | RawNull                                        (* null or undefined *)
  | RawDate (t : number)                           (* a Date object and its time value *)
  | RawOther (text : js_string) (asDate : number). (* anything else: String(v), and the
                                                      time value of new Date(v) *)

(** The first category of the data view. [queryName] is [None] when the
    source has none that is a string. *)
Record Category : Type := {
  queryName : option js_string;
  catValues : list raw_value
}.

(** The date a row stands for, [None] for a row the loop skips. *)
Definition rowDate (v : raw_value) : option JSDate :=
  match v with
  | RawNull => None
  | RawDate t =>
      let v := mkDate t in
      Some (newDate (Date_UTC (getUTCFullYear v) (getUTCMonth v) (getUTCDate v)))
  | RawOther text asDate =>
      match parseISODate (Some text) with
      | Some tryISO => Some tryISO
      | None =>
          let t := mkDate asDate in
          if negb (isNaN (getTime t))
          then Some (newDate (Date_UTC (getUTCFullYear t) (getUTCMonth t) (getUTCDate t)))
          else None
      end
  end.

Definition filterTargetOf (qn : option js_string) : option FilterTarget :=
  match qn with
  | None => None
  | Some qn =>
      let dot := lastIndexOf 46 qn in
      if 0 <? dot
      then Some {| table := take (Z.to_nat dot) qn; column := drop (Z.to_nat (dot + 1)) qn |}
      else None
  end.

(** One turn of the loop over [values], at index [i]. *)
Definition loadRow (i : nat) (v : raw_value) (st : Visual) : Visual :=
  match rowDate v with
  | None => st
  | Some d =>
      let key := Date_UTC (getUTCFullYear d) (getUTCMonth d) (getUTCDate d) in
      {| viewMode := viewMode st; cursorYear := cursorYear st; cursorMonth := cursorMonth st;
         selectedKeys := selectedKeys st;
         lastClickedKey := lastClickedKey st;
         settings := settings st; selectionSettings := selectionSettings st;
         dateRange := dateRange st;
         identitiesByKey := <[key := i]> (identitiesByKey st);
         selectableKeys := set_add key (selectableKeys st);
         minDataKey :=
           match minDataKey st with
           | None => Some key
           | Some mn => if num_lt key mn then Some key else Some mn
           end;
         maxDataKey :=
           match maxDataKey st with
           | None => Some key
           | Some mx => if num_lt mx key then Some key else Some mx
           end;
         filterTarget := filterTarget st |}
  end.

Fixpoint loadRows (i : nat) (vs : list raw_value) (st : Visual) : Visual :=
  match vs with
  | [] => st
  | v :: vs => loadRows (S i) vs (loadRow i v st)
  end.

(** [loadData(dv)]; [dv] is [None] when the data view has no category. *)
Definition loadData (today : Z * Z) (dv : option Category) (st : Visual) : Visual :=
  let cleared (cy cm : Z) (ft : option FilterTarget) : Visual :=
    {| viewMode := viewMode st; cursorYear := cy; cursorMonth := cm;
       selectedKeys := selectedKeys st;
       lastClickedKey := lastClickedKey st;
       settings := settings st; selectionSettings := selectionSettings st;
       dateRange := dateRange st;
       identitiesByKey := ∅; selectableKeys := [];
       minDataKey := None; maxDataKey := None;
       filterTarget := ft |} in
  match dv with
  | None => cleared today.1 today.2 None
  | Some cat =>
      loadRows 0 (catValues cat)
        (cleared (cursorYear st) (cursorMonth st) (filterTargetOf (queryName cat)))
  end.

(** [update(options)]: settings, then data; the host receives nothing. *)
Definition update (today : Z * Z) (o : MetadataObjects) (dv : option Category)
    (st : Visual) : Visual * list HostCall :=
  (loadData today dv (readSettings o st), []).

(** ** The day grid *)

Definition getStartOfWeekOffset (st : Visual) (dow0Sunday : number) : number :=
  match startOfWeek (settings st) with
  | Monday => if bool_decide (dow0Sunday = Some 0) then Some 6 else num_sub dow0Sunday (Some 1)
  | Sunday => dow0Sunday
  end.

(** [Math.ceil(n / 7)] for an integer [n]: the double nearest to [n / 7] is
    an integer only when [n / 7] is, so the rounded quotient has the
    ceiling of the exact one. *)
Definition ceil_div7 (n : Z) : Z := - ((- n) / 7).

Definition getISOWeek (d : JSDate) : number :=
  let date := newDate (Date_UTC (getUTCFullYear d) (getUTCMonth d) (getUTCDate d)) in
  let day := match getUTCDay date with
             | None | Some 0 => Some 7
             | Some w => Some w
             end in
  let date := setUTCDate date (num_sub (num_add (getUTCDate date) (Some 4)) day) in
  let yearStart := newDate (Date_UTC (getUTCFullYear date) (Some 0) (Some 1)) in
  (* both time values are whole days, so the quotient is exact *)
  diff ← num_sub (getTime date) (getTime yearStart);
  let diffDays := diff / 86400000 + 1 in
  Some (ceil_div7 diffDays).

(** The optional clamps of [renderDayGrid] (its [minKey] and [maxKey]). *)
Definition dayGridClamps (st : Visual) : option number * option number :=
  let minKey := minDataKey st in
  let maxKey := maxDataKey st in
  let cfgMin := parseISODate (minDate (dateRange st)) in
  let cfgMax := parseISODate (maxDate (dateRange st)) in
  let cfgMinKey := atUTC <$> cfgMin in
  let cfgMaxKey := atUTC <$> cfgMax in
  if negb (respectDataRange (dateRange st)) then (cfgMinKey, cfgMaxKey)
  else
    (match cfgMinKey with
     | Some c => match minKey with Some k => Some (Math_max k c) | None => Some c end
     | None => minKey
     end,
     match cfgMaxKey with
     | Some c => match maxKey with Some k => Some (Math_min k c) | None => Some c end
     | None => maxKey
     end).

(** One cell of the 6 x 7 grid: its key, the day number it shows, whether it
    belongs to the cursor month, the week number put before it (first cell of
    a row, when week numbers are on), whether it is a data date (class
    [selectable] instead of [disabled], and the click and key handlers are
    attached), and whether it is drawn selected. *)
Record DayCell : Type := {
  cellKey : number;
  cellText : number;
  inMonth : bool;
  weekNum : option number;
  isDataDate : bool;
  isSelected : bool
}.

Definition renderDayGrid (st : Visual) : list DayCell :=
  let y := cursorYear st in
  let m := cursorMonth st in
  let first := newDate (Date_UTC (Some y) (Some m) (Some 1)) in
  let firstDOW := getUTCDay first in
  let offset := getStartOfWeekOffset st firstDOW in
  let '(minKey, maxKey) := dayGridClamps st in
  let firstCellDate := newDate (Date_UTC (Some y) (Some m) (num_sub (Some 1) offset)) in
  (λ i : Z,
     let dt := newDate (Date_UTC (getUTCFullYear firstCellDate) (getUTCMonth firstCellDate)
                                 (num_add (getUTCDate firstCellDate) (Some i))) in
     let k := Date_UTC (getUTCFullYear dt) (getUTCMonth dt) (getUTCDate dt) in
     {| cellKey := k;
        cellText := getUTCDate dt;
        inMonth := bool_decide (getUTCMonth dt = Some m);
        weekNum := if showWeekNumbers (settings st) && (i mod 7 =? 0)
                   then Some (getISOWeek dt) else None;
        isDataDate := set_has k (selectableKeys st);
        isSelected := set_has k (selectedKeys st) |})
  <$> seqZ 0 42.

(** ** Selection and filtering *)

Record MouseEvent : Type := { ctrlKey : bool; metaKey : bool; shiftKey : bool }.

Definition applyFilterForKeys (keys : list number) (additive : bool) (st : Visual)
    : Visual * list HostCall :=
  match filterTarget st with
  | None => (st, [])
  | Some tgt =>
      let sel := if negb additive then set_add_all keys [] else set_add_all keys (selectedKeys st) in
      let values := newDate <$> sel in
      let filter := {| target := {| table := table tgt; column := column tgt |};
                       operator := "In"%string;
                       values := values |} in
      (with_selection sel st, [applyJsonFilter (Some filter) merge])
  end.

(** The day-by-day walk of the range branch: [fuel] bounds the number of
    turns of the [while] loop. *)
Fixpoint rangeWalk (fuel : nat) (selectable : JSSet) (cursor endDate : JSDate)
    (keys : list number) : list number :=
  match fuel with
  | O => keys
  | S fuel =>
      if num_le (atUTC cursor) (atUTC endDate) then
        let k := atUTC cursor in
        let keys := if set_has k selectable then keys ++ [k] else keys in
        let cursor := newDate (Date_UTC (getUTCFullYear cursor) (getUTCMonth cursor)
                                        (num_add (getUTCDate cursor) (Some 1))) in
        rangeWalk fuel selectable cursor endDate keys
      else keys
  end.

(** Every turn moves [atUTC cursor] forward by a day or more, so the loop
    makes no more turns than this (lemma [rangeWalk_fuel_enough]). *)
Definition rangeFuel (cursor endDate : JSDate) : nat :=
  match atUTC cursor, atUTC endDate with
  | Some a, Some b => Z.to_nat ((b - a) / ES.msPerDay + 1)
  | _, _ => O
  end.

Definition handleClickDate (key : number) (ev : MouseEvent) (st : Visual)
    : Visual * list HostCall :=
  let multiKey := multiSelect (selectionSettings st) && (ctrlKey ev || metaKey ev) in
  let rangeKey := rangeSelect (selectionSettings st) && shiftKey ev
                  && bool_decide (lastClickedKey st ≠ None) in
  if rangeKey then
    let a := default NaN (lastClickedKey st) in
    let start := if num_lt key a then key else a in
    let end_ := if num_lt key a then a else key in
    let cursor := newDate start in
    let endDate := newDate end_ in
    let keys := rangeWalk (rangeFuel cursor endDate) (selectableKeys st) cursor endDate [] in
    let '(st, calls) := applyFilterForKeys keys true st in
    (with_lastClicked (Some key) st, calls)
  else if multiKey then
    let sel := if set_has key (selectedKeys st) then set_delete key (selectedKeys st)
               else set_add key (selectedKeys st) in
    let '(st, calls) := applyFilterForKeys sel true (with_selection sel st) in
    (with_lastClicked (Some key) st, calls)
  else
    let '(st, calls) := applyFilterForKeys [key] false (with_selection (set_add key []) st) in
    (with_lastClicked (Some key) st, calls).

Definition clearSelection (st : Visual) : Visual * list HostCall :=
  let st := with_lastClicked None (with_selection [] st) in
  (st, match filterTarget st with
       | Some _ => [applyJsonFilter None remove]
       | None => []
       end).

(** A click (or Enter / Space) on a cell of the day grid: [renderDayGrid]
    attaches the handlers only to a data date; any other cell has nothing to
    run. *)
Definition clickCell (c : DayCell) (ev : MouseEvent) (st : Visual) : Visual * list HostCall :=
  if isDataDate c then handleClickDate (cellKey c) ev st else (st, []).

(** ** Navigation *)

Definition with_view (vm : ViewMode) (y m : Z) (st : Visual) : Visual := {|
  viewMode := vm; cursorYear := y; cursorMonth := m;
  selectedKeys := selectedKeys st;
  lastClickedKey := lastClickedKey st;
  settings := settings st; selectionSettings := selectionSettings st;
  dateRange := dateRange st; identitiesByKey := identitiesByKey st;
  selectableKeys := selectableKeys st; minDataKey := minDataKey st;
  maxDataKey := maxDataKey st; filterTarget := filterTarget st
|}.

(** [shiftMonth]: the two [while] loops bring the month back into 0..11,
    a year at a time. *)
Definition shiftMonth (delta : Z) (st : Visual) : Visual :=
  let m := cursorMonth st + delta in
  with_view (viewMode st) (cursorYear st + m / 12) (m mod 12) st.

Definition shiftYear (delta : Z) (st : Visual) : Visual :=
  with_view (viewMode st) (cursorYear st + delta) (cursorMonth st) st.

(** The previous and next buttons of the header. *)
Definition navButton (forward : bool) (st : Visual) : Visual :=
  let sign := if forward then 1 else -1 in
  match viewMode st with
  | view_day => shiftMonth sign st
  | view_month => shiftYear sign st
  | view_year => shiftYear (12 * sign) st
  end.

(** A click on the title or on the mode button. *)
Definition cycleView (st : Visual) : Visual :=
  with_view (match viewMode st with
             | view_day => view_month
             | view_month => view_year
             | view_year => view_day
             end) (cursorYear st) (cursorMonth st) st.

(** A click on cell [i] (0..11) of the month grid or of the year grid. *)
Definition clickMonthCell (i : Z) (st : Visual) : Visual :=
  with_view view_day (cursorYear st) i st.
Definition clickYearCell (i : Z) (st : Visual) : Visual :=
  with_view view_month (cursorYear st / 12 * 12 + i) (cursorMonth st) st.

(** ** What can happen to the visual

    The host delivers updates; the user clicks the cells the current grid
    shows, the header buttons, and whatever clears the selection (the Clear
    button, or the root element when the selection is not sticky). *)
Inductive Op : Type :=
  | OpUpdate (today : Z * Z) (o : MetadataObjects) (dv : option Category)
  | OpClickDay (i : nat) (ev : MouseEvent)
  | OpClear
  | OpNav (forward : bool)
  | OpCycleView
  | OpClickGrid (i : nat).

Definition step (op : Op) (st : Visual) : Visual * list HostCall :=
  match op with
  | OpUpdate today o dv => update today o dv st
  | OpClickDay i ev =>
      match viewMode st, renderDayGrid st !! i with
      | view_day, Some c => clickCell c ev st
      | _, _ => (st, [])
      end
  | OpClear => clearSelection st
  | OpNav forward => (navButton forward st, [])
  | OpCycleView => (cycleView st, [])
  | OpClickGrid i =>
      if bool_decide (i < 12)%nat then
        match viewMode st with
        | view_day => (st, [])
        | view_month => (clickMonthCell (Z.of_nat i) st, [])
        | view_year => (clickYearCell (Z.of_nat i) st, [])
        end
      else (st, [])
  end.

(** The state after a sequence of events, and everything the host received. *)
Fixpoint run (ops : list Op) (st : Visual) : Visual * list HostCall :=
  match ops with
  | [] => (st, [])
  | op :: ops =>
      let '(st1, calls1) := step op st in
      let '(st2, calls2) := run ops st1 in
      (st2, calls1 ++ calls2)
  end.

Definition call_action (c : HostCall) : FilterAction :=
  match c with applyJsonFilter _ a => a end.
Definition call_filter (c : HostCall) : option BasicFilter :=
  match c with applyJsonFilter f _ => f end.

(** A request the host can receive from this visual: the merge of an "In"
    filter, or the removal of the filter. *)
Definition well_shaped (c : HostCall) : Prop :=
  match c with
  | applyJsonFilter (Some f) merge => operator f = "In"%string
  | applyJsonFilter None remove => True
  | _ => False
  end.

(** ** Reference notions the claims are stated with *)

(** The Gregorian calendar: leap years and month lengths (months 1..12),
    and what a valid calendar date is. *)
Definition is_leap_year (y : Z) : bool :=
  (y mod 4 =? 0) && (negb (y mod 100 =? 0) || (y mod 400 =? 0)).

Definition days_in_month (y m : Z) : Z :=
  match m with
  | 1 | 3 | 5 | 7 | 8 | 10 | 12 => 31
  | 4 | 6 | 9 | 11 => 30
  | 2 => if is_leap_year y then 29 else 28
  | _ => 0
  end.

Definition valid_calendar_date (y m d : Z) : Prop :=
  1 ≤ m ≤ 12 ∧ 1 ≤ d ≤ days_in_month y m.

(** The day number (days since 1970-01-01) of a calendar date, month 1..12. *)
Definition day_number (y m d : Z) : Z := ES.MakeDay y (m - 1) d.

(** The key of a calendar day: its UTC midnight. *)
Definition day_key (y m d : Z) : number := Some (ES.msPerDay * day_number y m d).

(** A day number is in the time range of [Date] when its midnight is. *)
Definition day_in_range (d : Z) : Prop := -100000000 ≤ d ≤ 100000000.

(** The keys of the days [a], [a + 1], ..., [b]: the closed interval of
    whole UTC days. *)
Definition days_between (a b : Z) : list number :=
  (λ i, Some (ES.msPerDay * i)) <$> seqZ a (b - a + 1).

(** ISO-8601 week numbers of a day number.  Days of the week count from
    Sunday = 0 (1970-01-01 was a Thursday); weeks run Monday to Sunday. The
    Thursday of the week of [d] gives the week its year, and week 1 of a year
    is the week of that year's first Thursday. *)
Definition weekday_of_day (d : Z) : Z := (d + 4) mod 7.
Definition thursday_of_week (d : Z) : Z := d - (weekday_of_day d + 6) mod 7 + 3.
Definition first_thursday (y : Z) : Z :=
  let jan1 := ES.DayFromYear y in jan1 + (4 - weekday_of_day jan1) mod 7.
Definition iso_week_year (d : Z) : Z := ES.YearFromDay (thursday_of_week d).
Definition iso_week (d : Z) : Z :=
  (thursday_of_week d - first_thursday (iso_week_year d)) / 7 + 1.

(** The shape the ISO parser asks of a string: optional white space, 4-2-2
    digits separated by hyphens, optional white space. *)
Definition iso_shape (s y m d : js_string) : Prop :=
  ∃ w1 w2, s = w1 ++ y ++ [45%N] ++ m ++ [45%N] ++ d ++ w2
           ∧ forallb is_space w1 = true ∧ forallb is_space w2 = true
           ∧ length y = 4%nat ∧ length m = 2%nat ∧ length d = 2%nat
           ∧ forallb is_digit y = true ∧ forallb is_digit m = true
           ∧ forallb is_digit d = true.

(** Selection containment: every selected key is selectable. *)
Definition contained (st : Visual) : Prop := selectedKeys st ⊆ selectableKeys st.

(** The day [atUTC] computes for a time value: the fields of [t] given to
    [MakeDay], the year passed through [MakeFullYear]. *)
Definition atUTC_day (t : Z) : Z :=
  ES.MakeDay (ES.MakeFullYear (ES.YearFromTime t)) (ES.MonthFromTime t) (ES.DateFromTime t).

Definition with_dateRange (r : DateRangeSettings) (st : Visual) : Visual := {|
  viewMode := viewMode st; cursorYear := cursorYear st; cursorMonth := cursorMonth st;
  selectedKeys := selectedKeys st;
  lastClickedKey := lastClickedKey st;
  settings := settings st; selectionSettings := selectionSettings st;
  dateRange := r; identitiesByKey := identitiesByKey st;
  selectableKeys := selectableKeys st; minDataKey := minDataKey st;
  maxDataKey := maxDataKey st; filterTarget := filterTarget st
|}.

Definition with_filterTarget (ft : option FilterTarget) (st : Visual) : Visual := {|
  viewMode := viewMode st; cursorYear := cursorYear st; cursorMonth := cursorMonth st;
  selectedKeys := selectedKeys st;
  lastClickedKey := lastClickedKey st;
  settings := settings st; selectionSettings := selectionSettings st;
  dateRange := dateRange st; identitiesByKey := identitiesByKey st;
  selectableKeys := selectableKeys st; minDataKey := minDataKey st;
  maxDataKey := maxDataKey st; filterTarget := ft
|}.

(** The metadata objects with the three date-range entries replaced. *)
Definition with_range_entries (rdr : option bool) (mn mx : option js_string)
    (o : MetadataObjects) : MetadataObjects := {|
  o_startOfWeek := o_startOfWeek o; o_showWeekNumbers := o_showWeekNumbers o;
  o_otherMonthFade := o_otherMonthFade o; o_showDOWHeader := o_showDOWHeader o;
  o_multiSelect := o_multiSelect o; o_rangeSelect := o_rangeSelect o;
  o_stickySelection := o_stickySelection o;
  o_respectDataRange := rdr; o_minDate := mn; o_maxDate := mx
|}.

(** In a sequence of events, every update keeps the keys selected at that
    moment among the selectable ones. *)
Fixpoint updates_keep_selection (ops : list Op) (st : Visual) : Prop :=
  match ops with
  | [] => True
  | op :: ops =>
      match op with
      | OpUpdate today o dv => selectedKeys st ⊆ selectableKeys (update today o dv st).1
      | _ => True
      end
      ∧ updates_keep_selection ops (step op st).1
  end.

(** ** Sample data for the concrete cases: March 2024 *)

Definition ev_plain : MouseEvent := {| ctrlKey := false; metaKey := false; shiftKey := false |}.
Definition ev_ctrl : MouseEvent := {| ctrlKey := true; metaKey := false; shiftKey := false |}.
Definition ev_shift : MouseEvent := {| ctrlKey := false; metaKey := false; shiftKey := true |}.

(** Whether a click takes the range branch. *)
Definition rangeKey (ev : MouseEvent) (st : Visual) : bool :=
  rangeSelect (selectionSettings st) && shiftKey ev
  && bool_decide (lastClickedKey st ≠ None).

Definition no_objects : MetadataObjects := {|
  o_startOfWeek := None; o_showWeekNumbers := None; o_otherMonthFade := None;
  o_showDOWHeader := None; o_multiSelect := None; o_rangeSelect := None;
  o_stickySelection := None; o_respectDataRange := None; o_minDate := None;
  o_maxDate := None
|}.

(** A date column holding the given days of March 2024. *)
Definition march (qn : string) (days : list Z) : option Category :=
  Some {| queryName := Some (str qn);
          catValues := (λ d, RawDate (day_key 2024 3 d)) <$> days |}.

(** The visual opened in March 2024 on such a column. *)
Definition opened (qn : string) (days : list Z) : Visual :=
  (update (2024, 2) no_objects (march qn days) (initial (2024, 2))).1.

(** The same with every day of March in the data and 5 March clicked:
    the spec's range scenario. *)
Definition march_5_clicked (qn : string) : Visual :=
  (run [OpClickDay 8 ev_plain] (opened qn (seqZ 1 31))).1.

(** Metadata objects asking for weeks from Sunday and for week numbers. *)
Definition sunday_weeks_numbered : MetadataObjects := {|
  o_startOfWeek := Some Sunday; o_showWeekNumbers := Some true;
  o_otherMonthFade := None; o_showDOWHeader := None; o_multiSelect := None;
  o_rangeSelect := None; o_stickySelection := None; o_respectDataRange := None;
  o_minDate := None; o_maxDate := None
|}.

(** The visual, so configured, showing December of the year -1. *)
Definition december_year_minus_1 : Visual :=
  with_view view_day (-1) 11 (readSettings sunday_weeks_numbered (initial (2024, 2))).

(** ** Further notions for the rest of the class *)

(** The key [loadData] files a row under ([key] in its loop), [None] for a
    row the loop skips. *)
Definition rowKey (v : raw_value) : option number := atUTC <$> rowDate v.

(** [shiftMonth] with its two [while] loops; [fuel] bounds their turns. *)
Fixpoint carry_up (fuel : nat) (m y : Z) : Z * Z :=
  match fuel with
  | O => (m, y)
  | S fuel => if m <? 0 then carry_up fuel (m + 12) (y - 1) else (m, y)
  end.

Fixpoint carry_down (fuel : nat) (m y : Z) : Z * Z :=
  match fuel with
  | O => (m, y)
  | S fuel => if 11 <? m then carry_down fuel (m - 12) (y + 1) else (m, y)
  end.

Definition shiftMonth_loops (delta : Z) (st : Visual) : Visual :=
  let m := cursorMonth st + delta in
  let y := cursorYear st in
  let fuel := Z.to_nat (Z.abs m / 12 + 1) in
  let '(m, y) := carry_up fuel m y in
  let '(m, y) := carry_down fuel m y in
  with_view (viewMode st) y m st.

(** The years the cells of [renderYearGrid] show, in order. *)
Definition renderYearGrid (st : Visual) : list Z :=
  let base := cursorYear st / 12 * 12 in
  (λ i, base + i) <$> seqZ 0 12.

(** The day of the week (0 = Sunday) a row of the day grid starts on. *)
Definition week_start_day (st : Visual) : Z :=
  match startOfWeek (settings st) with Monday => 1 | Sunday => 0 end.

(** Whether a click takes the multi branch (once the range branch is out). *)
Definition multiKey (ev : MouseEvent) (st : Visual) : bool :=
  multiSelect (selectionSettings st) && (ctrlKey ev || metaKey ev).

(** The keys the walk of the range branch collects for a click on [key]. *)
Definition rangeKeys (key : number) (st : Visual) : list number :=
  let a := default NaN (lastClickedKey st) in
  let cursor := newDate (if num_lt key a then key else a) in
  let endDate := newDate (if num_lt key a then a else key) in
  rangeWalk (rangeFuel cursor endDate) (selectableKeys st) cursor endDate [].

(** Membership toggled, as the multi branch does it. *)
Definition toggle (key : number) (s : JSSet) : JSSet :=
  if set_has key s then set_delete key s else set_add key s.

(** The cursor years on which the day grid is the plain calendar: every
    day it shows is outside the years 0 to 99 and inside the time range. *)
Definition grid_year_ok (y : Z) : Prop := -271818 ≤ y ≤ -3 ∨ 102 ≤ y ≤ 275758.

(** An update whose clock gives a month 0..11, as [getUTCMonth] does. *)
Definition clock_ok (op : Op) : Prop :=
  match op with
  | OpUpdate today _ _ => 0 ≤ today.2 ≤ 11
  | _ => True
  end.


(** * Facts about the date algorithms *)

Ltac zlia := Z.to_euclidean_division_equations; lia.

(** Case analysis on every boolean test of the goal. *)
Ltac split_tests :=
  repeat match goal with
    | |- context [?a <? ?b] => destruct (Z.ltb_spec a b)
    | |- context [?a <=? ?b] => destruct (Z.leb_spec a b)
    | |- context [?a =? ?b] => destruct (Z.eqb_spec a b)
    end; simpl.

Lemma DaysInYear_cases y : ES.DaysInYear y = 365 ∨ ES.DaysInYear y = 366.
Proof. unfold ES.DaysInYear. split_tests; auto. Qed.

Lemma DayFromYear_succ y : ES.DayFromYear (y + 1) = ES.DayFromYear y + ES.DaysInYear y.
Proof. unfold ES.DayFromYear, ES.DaysInYear. split_tests; zlia. Qed.

Lemma DayFromYear_lt a b : a < b → ES.DayFromYear a < ES.DayFromYear b.
Proof. unfold ES.DayFromYear. zlia. Qed.

Lemma DayFromYear_le a b : a ≤ b → ES.DayFromYear a ≤ ES.DayFromYear b.
Proof. unfold ES.DayFromYear. zlia. Qed.

(** [YearFromDay d] is the year whose days include [d] ... *)
Lemma YearFromDay_spec d :
  ES.DayFromYear (ES.YearFromDay d) ≤ d < ES.DayFromYear (ES.YearFromDay d + 1).
Proof.
  unfold ES.YearFromDay.
  destruct (Z.ltb_spec d (ES.DayFromYear (1970 + 400 * d / 146097))) as [H1|H1].
  - revert H1. unfold ES.DayFromYear. zlia.
  - destruct (Z.leb_spec (ES.DayFromYear (1970 + 400 * d / 146097 + 1)) d) as [H2|H2].
    + revert H1 H2. unfold ES.DayFromYear. zlia.
    + lia.
Qed.

(** ... and the only one: it is the largest [y] with [DayFromYear y <= d],
    as ECMA-262 defines [YearFromTime]. *)
Lemma YearFromDay_unique d y :
  ES.DayFromYear y ≤ d < ES.DayFromYear (y + 1) → ES.YearFromDay d = y.
Proof.
  intros [Hlo Hhi]. pose proof (YearFromDay_spec d) as [Glo Ghi].
  destruct (Z.lt_trichotomy (ES.YearFromDay d) y) as [Hlt|[Heq|Hgt]]; [|done|].
  - pose proof (DayFromYear_le (ES.YearFromDay d + 1) y ltac:(lia)). lia.
  - pose proof (DayFromYear_le (y + 1) (ES.YearFromDay d) ltac:(lia)). lia.
Qed.

Lemma YearFromDay_largest d y :
  ES.DayFromYear y ≤ d → y ≤ ES.YearFromDay d.
Proof.
  intros Hy. pose proof (YearFromDay_spec d) as [_ Ghi].
  destruct (Z.le_gt_cases y (ES.YearFromDay d)) as [|Hgt]; [done|].
  pose proof (DayFromYear_le (ES.YearFromDay d + 1) y ltac:(lia)). lia.
Qed.

Lemma Day_whole d : ES.Day (ES.msPerDay * d) = d.
Proof. unfold ES.Day, ES.msPerDay. zlia. Qed.

Lemma TimeWithinDay_whole d : ES.TimeWithinDay (ES.msPerDay * d) = 0.
Proof. unfold ES.TimeWithinDay, ES.msPerDay. zlia. Qed.

Lemma DayWithinYear_bounds t :
  0 ≤ ES.DayWithinYear t < ES.DaysInYear (ES.YearFromTime t).
Proof.
  unfold ES.DayWithinYear, ES.YearFromTime.
  pose proof (YearFromDay_spec (ES.Day t)) as H.
  rewrite DayFromYear_succ in H. lia.
Qed.

Lemma MonthFromTime_bounds t : 0 ≤ ES.MonthFromTime t ≤ 11.
Proof. unfold ES.MonthFromTime. split_tests; lia. Qed.

Lemma MakeDay_month_in_range y m d :
  0 ≤ m ≤ 11 → ES.MakeDay y m d = ES.DayFromYear y + ES.MonthStart y m + d - 1.
Proof.
  intros Hm. unfold ES.MakeDay.
  rewrite (Z.div_small m 12), (Z.mod_small m 12), Z.add_0_r by lia. done.
Qed.

(** Reading the fields of [t] and giving them back to [MakeDay] returns the
    day of [t]; the date may be shifted by any number of days [c]. *)
Lemma MakeDay_fields t c :
  ES.MakeDay (ES.YearFromTime t) (ES.MonthFromTime t) (ES.DateFromTime t + c) = ES.Day t + c.
Proof.
  rewrite MakeDay_month_in_range by apply MonthFromTime_bounds.
  pose proof (DayWithinYear_bounds t) as Hb.
  unfold ES.DateFromTime, ES.MonthFromTime, ES.InLeapYear, ES.MonthStart.
  unfold ES.DayWithinYear in *.
  destruct (DaysInYear_cases (ES.YearFromTime t)) as [E|E]; rewrite E in *;
    simpl (_ =? _); cbv iota; split_tests; lia.
Qed.

Lemma DaysInYear_leap y : ES.DaysInYear y = if is_leap_year y then 366 else 365.
Proof. unfold ES.DaysInYear, is_leap_year. split_tests; done. Qed.

(** The other direction: a valid calendar date is read back from the day
    [MakeDay] gives it. *)
Lemma fields_of_day_number y m d :
  valid_calendar_date y m d →
  ES.YearFromDay (day_number y m d) = y
  ∧ ES.MonthFromTime (ES.msPerDay * day_number y m d) = m - 1
  ∧ ES.DateFromTime (ES.msPerDay * day_number y m d) = d.
Proof.
  intros [Hm Hd]. unfold day_number.
  rewrite MakeDay_month_in_range by lia.
  assert (HY : ES.YearFromDay (ES.DayFromYear y + ES.MonthStart y (m - 1) + d - 1) = y).
  { apply YearFromDay_unique. rewrite DayFromYear_succ, DaysInYear_leap.
    revert Hd. unfold days_in_month, ES.MonthStart. rewrite DaysInYear_leap.
    assert (Hc : m = 1 ∨ m = 2 ∨ m = 3 ∨ m = 4 ∨ m = 5 ∨ m = 6 ∨ m = 7 ∨ m = 8
                 ∨ m = 9 ∨ m = 10 ∨ m = 11 ∨ m = 12) by lia.
    destruct (is_leap_year y); simpl; intuition (subst; simpl in *; lia). }
  split; [done|].
  unfold ES.DateFromTime, ES.MonthFromTime, ES.InLeapYear, ES.DayWithinYear, ES.YearFromTime.
  rewrite Day_whole, HY.
  revert Hd. unfold days_in_month, ES.MonthStart. rewrite DaysInYear_leap.
  assert (Hc : m = 1 ∨ m = 2 ∨ m = 3 ∨ m = 4 ∨ m = 5 ∨ m = 6 ∨ m = 7 ∨ m = 8
               ∨ m = 9 ∨ m = 10 ∨ m = 11 ∨ m = 12) by lia.
  destruct (is_leap_year y);
    (repeat (destruct Hc as [-> | Hc]; [simpl; intros; split_tests; lia|]));
    subst m; simpl; intros; split_tests; lia.
Qed.

(** The first of a month, as [MakeDay] finds it, has the three fields
    ECMA-262 asks for. *)
Lemma MakeDay_first_of_month y m :
  0 ≤ m ≤ 11 →
  let t := ES.msPerDay * ES.MakeDay y m 1 in
  ES.YearFromTime t = y ∧ ES.MonthFromTime t = m ∧ ES.DateFromTime t = 1.
Proof.
  intros Hm t.
  assert (Hv : valid_calendar_date y (m + 1) 1).
  { split; [lia|]. unfold days_in_month.
    assert (Hc : m = 0 ∨ m = 1 ∨ m = 2 ∨ m = 3 ∨ m = 4 ∨ m = 5 ∨ m = 6 ∨ m = 7
                 ∨ m = 8 ∨ m = 9 ∨ m = 10 ∨ m = 11) by lia.
    destruct (is_leap_year y); intuition (subst m; simpl; lia). }
  destruct (fields_of_day_number y (m + 1) 1 Hv) as (HY & HM & HD).
  unfold day_number in *. replace (m + 1 - 1) with m in * by lia.
  unfold ES.YearFromTime. subst t. rewrite Day_whole. auto with lia.
Qed.

(** ** Time values and [Date.UTC] *)

Lemma TimeClip_in_range t : Z.abs t ≤ ES.maxTime → ES.TimeClip t = Some t.
Proof. unfold ES.TimeClip. intros. destruct (Z.ltb_spec ES.maxTime (Z.abs t)); [lia|done]. Qed.

Lemma TimeClip_out_of_range t : ES.maxTime < Z.abs t → ES.TimeClip t = NaN.
Proof. unfold ES.TimeClip. intros. destruct (Z.ltb_spec ES.maxTime (Z.abs t)); [done|lia]. Qed.

Lemma TimeClip_Some t u : ES.TimeClip t = Some u → u = t ∧ Z.abs t ≤ ES.maxTime.
Proof.
  unfold ES.TimeClip. destruct (Z.ltb_spec ES.maxTime (Z.abs t)); [done|].
  intros [= <-]. done.
Qed.

Lemma MakeFullYear_id y : ¬ (0 ≤ y ≤ 99) → ES.MakeFullYear y = y.
Proof. unfold ES.MakeFullYear. split_tests; lia. Qed.

Lemma MakeDate_whole d : ES.MakeDate d 0 = ES.msPerDay * d.
Proof. unfold ES.MakeDate. lia. Qed.

Lemma day_in_range_abs d : day_in_range d ↔ Z.abs (ES.msPerDay * d) ≤ ES.maxTime.
Proof. unfold day_in_range, ES.msPerDay, ES.maxTime. lia. Qed.

Lemma Day_in_range t : Z.abs t ≤ ES.maxTime → day_in_range (ES.Day t).
Proof. unfold day_in_range, ES.Day, ES.msPerDay, ES.maxTime. zlia. Qed.

Lemma newDate_whole d : day_in_range d → newDate (Some (ES.msPerDay * d)) = mkDate (Some (ES.msPerDay * d)).
Proof.
  intros Hd. unfold newDate. simpl. rewrite TimeClip_in_range; [done|].
  by apply day_in_range_abs.
Qed.

Lemma Date_UTC_Some y m d :
  Date_UTC (Some y) (Some m) (Some d)
  = ES.TimeClip (ES.msPerDay * ES.MakeDay (ES.MakeFullYear y) m d).
Proof. unfold Date_UTC. cbn [mbind option_bind]. rewrite MakeDate_whole. reflexivity. Qed.

(** [Date.UTC] on the fields of a time value, the date shifted by [c] days:
    outside the years 0..99 it is the midnight of that day. *)
Lemma Date_UTC_fields t c :
  ¬ (0 ≤ ES.YearFromTime t ≤ 99) →
  Date_UTC (Some (ES.YearFromTime t)) (Some (ES.MonthFromTime t)) (Some (ES.DateFromTime t + c))
  = ES.TimeClip (ES.msPerDay * (ES.Day t + c)).
Proof.
  intros Hy. rewrite Date_UTC_Some, MakeFullYear_id, MakeDay_fields; [reflexivity|assumption].
Qed.

Lemma atUTC_time t :
  atUTC (mkDate (Some t))
  = Date_UTC (Some (ES.YearFromTime t)) (Some (ES.MonthFromTime t)) (Some (ES.DateFromTime t)).
Proof. reflexivity. Qed.

Lemma atUTC_NaN : atUTC (mkDate NaN) = NaN.
Proof. reflexivity. Qed.

Lemma atUTC_whole_day d :
  day_in_range d → ¬ (0 ≤ ES.YearFromDay d ≤ 99) →
  atUTC (mkDate (Some (ES.msPerDay * d))) = Some (ES.msPerDay * d).
Proof.
  intros Hd Hy. rewrite atUTC_time.
  pose proof (Date_UTC_fields (ES.msPerDay * d) 0) as H.
  rewrite Z.add_0_r in H. rewrite H.
  - rewrite Day_whole, Z.add_0_r. apply TimeClip_in_range. by apply day_in_range_abs.
  - unfold ES.YearFromTime. by rewrite Day_whole.
Qed.

Lemma MonthStart_bounds y m : 0 ≤ ES.MonthStart y m ≤ 335.
Proof. unfold ES.MonthStart. repeat case_match; lia. Qed.

Lemma MonthStart_leap_diff y y' m : ES.MonthStart y m - 1 ≤ ES.MonthStart y' m.
Proof. unfold ES.MonthStart. repeat case_match; lia. Qed.

Lemma MakeDay_shift y m d c : ES.MakeDay y m (d + c) = ES.MakeDay y m d + c.
Proof. unfold ES.MakeDay. lia. Qed.

Lemma atUTC_eq t : atUTC (mkDate (Some t)) = ES.TimeClip (ES.msPerDay * atUTC_day t).
Proof. rewrite atUTC_time, Date_UTC_Some. unfold atUTC_day. reflexivity. Qed.

(** [atUTC] never moves a day backwards: it keeps the day, or moves it 1900
    years on. *)
Lemma atUTC_day_ge t : ES.Day t ≤ atUTC_day t.
Proof.
  unfold atUTC_day. pose proof (MakeDay_fields t 0) as H. rewrite !Z.add_0_r in H.
  unfold ES.MakeFullYear. destruct (_ && _) eqn:E; [|lia].
  rewrite MakeDay_month_in_range in * by apply MonthFromTime_bounds.
  pose proof (MonthStart_leap_diff (ES.YearFromTime t) (1900 + ES.YearFromTime t)
                (ES.MonthFromTime t)).
  assert (ES.DayFromYear (ES.YearFromTime t) + 1 ≤ ES.DayFromYear (1900 + ES.YearFromTime t)).
  { unfold ES.DayFromYear. zlia. }
  lia.
Qed.

Lemma atUTC_day_id t : ¬ (0 ≤ ES.YearFromTime t ≤ 99) → atUTC_day t = ES.Day t.
Proof.
  intros Hy. unfold atUTC_day. rewrite MakeFullYear_id by assumption.
  pose proof (MakeDay_fields t 0) as H. by rewrite !Z.add_0_r in H.
Qed.

(** The cursor of the range walk after one turn. *)
Lemma next_cursor t :
  newDate (Date_UTC (getUTCFullYear (mkDate (Some t))) (getUTCMonth (mkDate (Some t)))
                    (num_add (getUTCDate (mkDate (Some t))) (Some 1)))
  = mkDate (ES.TimeClip (ES.msPerDay * (atUTC_day t + 1))).
Proof.
  unfold atUTC_day.
  change (getUTCFullYear (mkDate (Some t))) with (Some (ES.YearFromTime t)).
  change (getUTCMonth (mkDate (Some t))) with (Some (ES.MonthFromTime t)).
  change (num_add (getUTCDate (mkDate (Some t))) (Some 1))
    with (Some (ES.DateFromTime t + 1)).
  rewrite Date_UTC_Some, MakeDay_shift. unfold newDate.
  destruct (ES.TimeClip _) as [u|] eqn:E; cbn [mbind option_bind]; [|reflexivity].
  apply TimeClip_Some in E as [-> E]. rewrite TimeClip_in_range; [reflexivity|assumption].
Qed.

Lemma rangeWalk_stop fuel sel c e keys :
  num_le (atUTC c) (atUTC e) = false → rangeWalk fuel sel c e keys = keys.
Proof. intros H. destruct fuel; simpl; [done|]. by rewrite H. Qed.

Lemma rangeWalk_more fuel n sel c e keys :
  (∀ ua ub, atUTC c = Some ua → atUTC e = Some ub →
            (ub - ua) / ES.msPerDay + 1 ≤ Z.of_nat fuel) →
  rangeWalk (fuel + n) sel c e keys = rangeWalk fuel sel c e keys.
Proof.
  revert c keys. induction fuel as [|fuel IH]; intros c keys Hf.
  - simpl. apply rangeWalk_stop.
    destruct (atUTC c) as [ua|] eqn:Ea, (atUTC e) as [ub|] eqn:Eb; simpl; try done.
    specialize (Hf ua ub eq_refl eq_refl).
    apply Z.leb_gt. revert Hf. unfold ES.msPerDay. zlia.
  - simpl. destruct (num_le (atUTC c) (atUTC e)) eqn:Hle; [|done].
    apply IH. intros ua' ub Ea' Eb.
    destruct c as [[t|]]; [|done].
    rewrite atUTC_eq in Hle, Hf. rewrite next_cursor in Ea'.
    destruct (ES.TimeClip (ES.msPerDay * atUTC_day t)) as [ua|] eqn:Ea; [|done].
    specialize (Hf ua ub eq_refl Eb).
    destruct (ES.TimeClip (ES.msPerDay * (atUTC_day t + 1))) as [t'|] eqn:Et'; [|done].
    apply TimeClip_Some in Et' as [-> _]. rewrite atUTC_eq in Ea'.
    apply TimeClip_Some in Ea as [-> _]. apply TimeClip_Some in Ea' as [-> _].
    pose proof (atUTC_day_ge (ES.msPerDay * (atUTC_day t + 1))) as Hge.
    rewrite Day_whole in Hge.
    revert Hf Hge. unfold ES.msPerDay. generalize (atUTC_day t).
    intros g. generalize (atUTC_day (86400000 * (g + 1))). intros g'. zlia.
Qed.

(** The loop of the range branch ends within [rangeFuel] turns: more fuel
    changes nothing. *)
Lemma rangeWalk_fuel_enough n sel c e keys :
  rangeWalk (rangeFuel c e + n) sel c e keys = rangeWalk (rangeFuel c e) sel c e keys.
Proof.
  apply rangeWalk_more. intros ua ub Ea Eb. unfold rangeFuel. rewrite Ea, Eb. lia.
Qed.

Lemma YearFromDay_mono a b : a ≤ b → ES.YearFromDay a ≤ ES.YearFromDay b.
Proof.
  intros Hab. apply YearFromDay_largest.
  pose proof (YearFromDay_spec a). lia.
Qed.

(** ** The range walk, day by day *)

Lemma days_between_nil a b : b < a → days_between a b = [].
Proof. intros H. unfold days_between. rewrite seqZ_nil by lia. done. Qed.

Lemma days_between_cons a b :
  a ≤ b → days_between a b = Some (ES.msPerDay * a) :: days_between (a + 1) b.
Proof.
  intros H. unfold days_between. rewrite seqZ_cons by lia. simpl.
  do 3 f_equal; lia.
Qed.

Lemma elem_of_days_between k a b :
  k ∈ days_between a b ↔ ∃ i, a ≤ i ≤ b ∧ k = Some (ES.msPerDay * i).
Proof.
  unfold days_between. rewrite list_elem_of_fmap. setoid_rewrite elem_of_seqZ.
  split; intros (i & H1 & H2); exists i; split; auto; lia.
Qed.

Lemma rangeWalk_days fuel sel a b keys :
  day_in_range a → day_in_range b →
  100 ≤ ES.YearFromDay a → 100 ≤ ES.YearFromDay b →
  b - a + 1 ≤ Z.of_nat fuel →
  rangeWalk fuel sel (mkDate (Some (ES.msPerDay * a))) (mkDate (Some (ES.msPerDay * b))) keys
  = keys ++ filter (λ k, k ∈ sel) (days_between a b).
Proof.
  revert a keys. induction fuel as [|fuel IH]; intros a keys Ha Hb Ya Yb Hf.
  - rewrite days_between_nil by lia. simpl. by rewrite app_nil_r.
  - cbn [rangeWalk]. rewrite !atUTC_whole_day by (auto; lia).
    cbn [num_le]. destruct (Z.leb_spec (ES.msPerDay * a) (ES.msPerDay * b)) as [Hle|Hgt].
    + assert (a ≤ b) by (revert Hle; unfold ES.msPerDay; lia).
      rewrite days_between_cons, filter_cons by done.
      rewrite next_cursor, atUTC_day_id by (unfold ES.YearFromTime; rewrite Day_whole; lia).
      rewrite Day_whole.
      destruct (Z.le_gt_cases (a + 1) 100000000) as [Hin|Hout].
      * rewrite TimeClip_in_range by (apply day_in_range_abs; unfold day_in_range in *; lia).
        rewrite IH; try done; try lia.
        -- unfold set_has. destruct (decide (Some (ES.msPerDay * a) ∈ sel)).
           ++ rewrite bool_decide_eq_true_2 by done. by rewrite <- app_assoc.
           ++ rewrite bool_decide_eq_false_2 by done. done.
        -- unfold day_in_range in *; lia.
        -- pose proof (YearFromDay_mono a (a + 1)). lia.
      * rewrite TimeClip_out_of_range by (unfold ES.msPerDay, ES.maxTime; lia).
        rewrite rangeWalk_stop by done.
        rewrite days_between_nil by (unfold day_in_range in *; lia).
        unfold set_has. destruct (decide (Some (ES.msPerDay * a) ∈ sel)).
        ++ rewrite bool_decide_eq_true_2 by done. done.
        ++ rewrite bool_decide_eq_false_2 by done. simpl. by rewrite app_nil_r.
    + rewrite days_between_nil by (revert Hgt; unfold ES.msPerDay; lia).
      simpl. by rewrite app_nil_r.
Qed.

(** ** Sets in insertion order *)

Lemma set_has_true k s : set_has k s = true ↔ k ∈ s.
Proof. unfold set_has. apply bool_decide_eq_true. Qed.

Lemma set_has_false k s : set_has k s = false ↔ k ∉ s.
Proof. unfold set_has. apply bool_decide_eq_false. Qed.

Lemma elem_of_set_add x k s : x ∈ set_add k s ↔ x = k ∨ x ∈ s.
Proof.
  unfold set_add. destruct (set_has k s) eqn:E.
  - apply set_has_true in E. split; [auto|]. intros [->|]; done.
  - rewrite elem_of_app, list_elem_of_singleton. tauto.
Qed.

Lemma elem_of_set_add_all x ks s : x ∈ set_add_all ks s ↔ x ∈ ks ∨ x ∈ s.
Proof.
  unfold set_add_all. revert s. induction ks as [|k ks IH]; intros s; simpl.
  - rewrite elem_of_nil. tauto.
  - rewrite IH, elem_of_set_add, elem_of_cons. tauto.
Qed.

Lemma elem_of_set_delete x k s : x ∈ set_delete k s ↔ x ∈ s ∧ x ≠ k.
Proof. unfold set_delete. rewrite list_elem_of_filter. tauto. Qed.

Lemma set_add_present k s : k ∈ s → set_add k s = s.
Proof. intros H. unfold set_add. by rewrite (proj2 (set_has_true k s) H). Qed.

(** Adding members of a set to it changes nothing, order included. *)
Lemma set_add_all_present ks s : ks ⊆ s → set_add_all ks s = s.
Proof.
  unfold set_add_all. induction ks as [|k ks IH]; intros H; simpl; [done|].
  rewrite set_add_present by (apply H; left). apply IH.
  intros x Hx. apply H. by right.
Qed.

Lemma set_add_NoDup k s : NoDup s → NoDup (set_add k s).
Proof.
  intros H. unfold set_add. destruct (set_has k s) eqn:E; [done|].
  apply set_has_false in E. apply NoDup_app. split_and!; [done| |apply NoDup_singleton].
  intros x Hx Hk. apply list_elem_of_singleton in Hk. by subst.
Qed.

(** ** The ISO pattern *)

Lemma digit_not_space c : is_digit c = true → is_space c = false.
Proof.
  unfold is_digit, is_space. intros [H1 H2]%andb_true_iff.
  apply N.leb_le in H1, H2. apply orb_false_iff. split.
  - apply bool_decide_eq_false. intros H.
    repeat (apply elem_of_cons in H as [->|H]; [lia|]). by apply elem_of_nil in H.
  - apply andb_false_iff. left. apply N.leb_gt. lia.
Qed.

Lemma skip_spaces_split s :
  ∃ w, s = w ++ skip_spaces s ∧ forallb is_space w = true.
Proof.
  induction s as [|c s (w & Hs & Hw)]; simpl.
  - by exists [].
  - destruct (is_space c) eqn:E.
    + exists (c :: w). simpl. rewrite E, Hw. split; [by f_equal|done].
    + by exists [].
Qed.

Lemma skip_spaces_app w s :
  forallb is_space w = true → skip_spaces (w ++ s) = skip_spaces s.
Proof.
  induction w as [|c w IH]; simpl; [done|].
  intros [-> H]%andb_true_iff. auto.
Qed.

Lemma skip_spaces_digit c s : is_digit c = true → skip_spaces (c :: s) = c :: s.
Proof. intros H. simpl. by rewrite digit_not_space. Qed.

Lemma take_digits_Some n s ds r :
  take_digits n s = Some (ds, r)
  ↔ s = ds ++ r ∧ length ds = n ∧ forallb is_digit ds = true.
Proof.
  unfold take_digits. split.
  - destruct (bool_decide _ && _) eqn:E; [|done]. intros [= <- <-].
    apply andb_true_iff in E as [E1%bool_decide_eq_true E2].
    by rewrite take_drop.
  - intros (-> & <- & Hd).
    rewrite take_app_length, drop_app_length, Hd, bool_decide_eq_true_2 by done. done.
Qed.

Lemma take_digits_app n ds r :
  length ds = n → forallb is_digit ds = true → take_digits n (ds ++ r) = Some (ds, r).
Proof. intros. by apply take_digits_Some. Qed.

Lemma expect_Some c s r : expect c s = Some r ↔ s = c :: r.
Proof.
  unfold expect. destruct s as [|x s]; [done|].
  destruct (N.eqb_spec x c) as [->|Hne]; split; intros [= ]; subst; done.
Qed.

(** [iso_exec] accepts exactly the strings of the ISO shape, and returns
    their three groups. *)
Lemma iso_exec_Some s y m d : iso_exec s = Some (y, m, d) ↔ iso_shape s y m d.
Proof.
  unfold iso_exec, iso_shape. split.
  - destruct (skip_spaces_split s) as (w1 & Hs & Hw1).
    destruct (take_digits 4 (skip_spaces s)) as [[y' s1]|] eqn:E1; [|done]. cbn.
    destruct (expect 45 s1) as [s2|] eqn:E2; [|done]. cbn.
    destruct (take_digits 2 s2) as [[m' s3]|] eqn:E3; [|done]. cbn.
    destruct (expect 45 s3) as [s4|] eqn:E4; [|done]. cbn.
    destruct (take_digits 2 s4) as [[d' s5]|] eqn:E5; [|done]. cbn.
    destruct (forallb is_space s5) eqn:E6; [|done]. intros [= -> -> ->].
    apply take_digits_Some in E1 as (E1 & ? & ?), E3 as (E3 & ? & ?), E5 as (E5 & ? & ?).
    apply expect_Some in E2, E4. exists w1, s5.
    rewrite Hs at 1. rewrite E1, E2, E3, E4, E5. done.
  - intros (w1 & w2 & -> & Hw1 & Hw2 & Ly & Lm & Ld & Dy & Dm & Dd).
    rewrite skip_spaces_app by done.
    destruct y as [|c y]; [done|]. simpl in Dy. apply andb_true_iff in Dy as [Dc Dy].
    change ((c :: y) ++ [45%N] ++ m ++ [45%N] ++ d ++ w2)
      with (c :: (y ++ [45%N] ++ m ++ [45%N] ++ d ++ w2)).
    rewrite skip_spaces_digit by done.
    change (c :: (y ++ [45%N] ++ m ++ [45%N] ++ d ++ w2))
      with ((c :: y) ++ ([45%N] ++ m ++ [45%N] ++ d ++ w2)).
    rewrite take_digits_app by (try done; simpl; by rewrite Dc, Dy). cbn.
    rewrite take_digits_app by done. cbn.
    rewrite take_digits_app by done. cbn.
    by rewrite Hw2.
Qed.

(** ** [parseInt] on a run of digits *)

Lemma digit_prefix_all ds : forallb is_digit ds = true → digit_prefix ds = ds.
Proof.
  induction ds as [|c ds IH]; simpl; [done|].
  intros [-> H]%andb_true_iff. by rewrite IH.
Qed.

Lemma parseInt10_digits ds :
  ds ≠ [] → forallb is_digit ds = true → parseInt10 ds = Some (digits_value ds).
Proof.
  intros Hne Hd. destruct ds as [|c ds]; [done|].
  pose proof Hd as Hd'. simpl in Hd'. apply andb_true_iff in Hd' as [Dc _].
  unfold parseInt10. rewrite skip_spaces_digit by done.
  assert (c ≠ 45%N ∧ c ≠ 43%N) as [H1 H2].
  { unfold is_digit in Dc. apply andb_true_iff in Dc as [H1%N.leb_le H2%N.leb_le]. lia. }
  assert (Hp : digit_prefix (c :: ds) = c :: ds) by by apply digit_prefix_all.
  destruct c as [|p]; [by rewrite Hp; f_equal; lia|].
  repeat (destruct p as [p|p|]; try done; try (rewrite Hp; f_equal; lia)).
Qed.

Lemma digits_value_bounds ds :
  forallb is_digit ds = true → 0 ≤ digits_value ds < 10 ^ Z.of_nat (length ds).
Proof.
  unfold digits_value.
  assert (H : ∀ acc, forallb is_digit ds = true → 0 ≤ acc →
    acc * 10 ^ Z.of_nat (length ds) ≤ foldl (λ acc c, 10 * acc + (Z.of_N c - 48)) acc ds
    < (acc + 1) * 10 ^ Z.of_nat (length ds)).
  { induction ds as [|c ds IH]; intros acc Hd Hacc; [simpl; lia|].
    cbn [forallb foldl length] in *.
    apply andb_true_iff in Hd as [Dc Hd]. unfold is_digit in Dc.
    apply andb_true_iff in Dc as [H1%N.leb_le H2%N.leb_le].
    specialize (IH (10 * acc + (Z.of_N c - 48)) Hd ltac:(lia)).
    rewrite Nat2Z.inj_succ, Z.pow_succ_r by lia.
    pose proof (Z.pow_pos_nonneg 10 (Z.of_nat (length ds)) ltac:(lia) ltac:(lia)).
    nia. }
  intros Hd. specialize (H 0 Hd ltac:(lia)). lia.
Qed.

(** ** ISO weeks *)

(** The reference notions are what their names say. *)
Lemma thursday_of_week_spec d :
  weekday_of_day (thursday_of_week d) = 4
  ∧ thursday_of_week d - 3 ≤ d ≤ thursday_of_week d + 3.
Proof. unfold thursday_of_week, weekday_of_day. zlia. Qed.

Lemma first_thursday_spec y :
  weekday_of_day (first_thursday y) = 4
  ∧ ES.DayFromYear y ≤ first_thursday y ≤ ES.DayFromYear y + 6.
Proof. unfold first_thursday, weekday_of_day. cbv zeta. zlia. Qed.

(** The day [getISOWeek] moves to is the Thursday of the week. *)
Lemma thursday_as_computed d :
  d + 4 - (if weekday_of_day d =? 0 then 7 else weekday_of_day d) = thursday_of_week d.
Proof. unfold thursday_of_week, weekday_of_day. split_tests; zlia. Qed.

(** Counting weeks from 1 January, rounded up, is counting from the first
    Thursday. *)
Lemma week_count th jan1 :
  weekday_of_day th = 4 → jan1 ≤ th →
  ceil_div7 (th - jan1 + 1) = (th - (jan1 + (4 - weekday_of_day jan1) mod 7)) / 7 + 1.
Proof. unfold ceil_div7, weekday_of_day. zlia. Qed.

Lemma getISOWeek_steps d :
  day_in_range d → day_in_range (thursday_of_week d) →
  ¬ (0 ≤ ES.YearFromDay d ≤ 99) → ¬ (0 ≤ ES.YearFromDay (thursday_of_week d) ≤ 99) →
  day_in_range (ES.DayFromYear (ES.YearFromDay (thursday_of_week d))) →
  getISOWeek (mkDate (Some (ES.msPerDay * d))) = Some (iso_week d).
Proof.
  intros Hd Hth Yd Yth Hj. unfold getISOWeek.
  change (getUTCFullYear (mkDate (Some (ES.msPerDay * d))))
    with (Some (ES.YearFromTime (ES.msPerDay * d))).
  change (getUTCMonth (mkDate (Some (ES.msPerDay * d))))
    with (Some (ES.MonthFromTime (ES.msPerDay * d))).
  change (getUTCDate (mkDate (Some (ES.msPerDay * d))))
    with (Some (ES.DateFromTime (ES.msPerDay * d))).
  pose proof (Date_UTC_fields (ES.msPerDay * d) 0) as H0.
  rewrite !Z.add_0_r, Day_whole in H0. rewrite H0
    by (unfold ES.YearFromTime; by rewrite Day_whole).
  rewrite TimeClip_in_range by by apply day_in_range_abs.
  rewrite newDate_whole by done.
  change (getUTCDay (mkDate (Some (ES.msPerDay * d))))
    with (Some (ES.WeekDay (ES.msPerDay * d))).
  change (getUTCDate (mkDate (Some (ES.msPerDay * d))))
    with (Some (ES.DateFromTime (ES.msPerDay * d))).
  assert (Hw : ES.WeekDay (ES.msPerDay * d) = weekday_of_day d).
  { unfold ES.WeekDay. by rewrite Day_whole. }
  rewrite Hw. cbv beta iota.
  assert (Hday : match weekday_of_day d with 0 => Some 7 | _ => Some (weekday_of_day d) end
                 = Some (if weekday_of_day d =? 0 then 7 else weekday_of_day d)).
  { by destruct (weekday_of_day d). }
  rewrite Hday. cbn [num_add num_sub mbind option_bind].
  unfold setUTCDate. cbn [getTime mbind option_bind].
  replace (ES.DateFromTime (ES.msPerDay * d) + 4
           - (if weekday_of_day d =? 0 then 7 else weekday_of_day d))
    with (ES.DateFromTime (ES.msPerDay * d)
          + (4 - (if weekday_of_day d =? 0 then 7 else weekday_of_day d))) by lia.
  rewrite MakeDay_fields, Day_whole, TimeWithinDay_whole.
  replace (d + (4 - (if weekday_of_day d =? 0 then 7 else weekday_of_day d)))
    with (thursday_of_week d) by (rewrite <- thursday_as_computed; lia).
  rewrite MakeDate_whole, TimeClip_in_range by by apply day_in_range_abs.
  change (getUTCFullYear (mkDate (Some (ES.msPerDay * thursday_of_week d))))
    with (Some (ES.YearFromTime (ES.msPerDay * thursday_of_week d))).
  unfold ES.YearFromTime at 1. rewrite Day_whole.
  rewrite Date_UTC_Some, MakeFullYear_id by done.
  rewrite MakeDay_month_in_range by lia.
  change (ES.MonthStart (ES.YearFromDay (thursday_of_week d)) 0) with 0.
  replace (ES.DayFromYear (ES.YearFromDay (thursday_of_week d)) + 0 + 1 - 1)
    with (ES.DayFromYear (ES.YearFromDay (thursday_of_week d))) by lia.
  rewrite TimeClip_in_range by by apply day_in_range_abs.
  rewrite newDate_whole by done. cbn [getTime num_sub mbind option_bind].
  f_equal. unfold iso_week, iso_week_year, first_thursday.
  destruct (thursday_of_week_spec d) as [Hthu _].
  pose proof (YearFromDay_spec (thursday_of_week d)) as [Hj1 _].
  rewrite <- week_count by done. f_equal.
  generalize (thursday_of_week d), (ES.DayFromYear (ES.YearFromDay (thursday_of_week d))).
  intros a b. unfold ES.msPerDay. zlia.
Qed.

(** * The operations of the visual *)

(** ** Loading leaves the selection alone *)

Lemma loadRows_selection i vs st :
  selectedKeys (loadRows i vs st) = selectedKeys st
  ∧ lastClickedKey (loadRows i vs st) = lastClickedKey st
  ∧ dateRange (loadRows i vs st) = dateRange st
  ∧ settings (loadRows i vs st) = settings st
  ∧ cursorYear (loadRows i vs st) = cursorYear st
  ∧ cursorMonth (loadRows i vs st) = cursorMonth st.
Proof.
  revert i st. induction vs as [|v vs IH]; intros i st; simpl; [done|].
  destruct (IH (S i) (loadRow i v st)) as (-> & -> & -> & -> & -> & ->).
  unfold loadRow. by destruct (rowDate v).
Qed.

Lemma loadData_selection today dv st :
  selectedKeys (loadData today dv st) = selectedKeys st
  ∧ lastClickedKey (loadData today dv st) = lastClickedKey st.
Proof.
  unfold loadData. destruct dv as [cat|]; [|done].
  destruct (loadRows_selection 0 (catValues cat)
    {| viewMode := viewMode st; cursorYear := cursorYear st; cursorMonth := cursorMonth st;
       selectedKeys := selectedKeys st; lastClickedKey := lastClickedKey st;
       settings := settings st; selectionSettings := selectionSettings st;
       dateRange := dateRange st; identitiesByKey := ∅; selectableKeys := [];
       minDataKey := None; maxDataKey := None;
       filterTarget := filterTargetOf (queryName cat) |}) as (-> & -> & _).
  done.
Qed.

(** What a load computes from the data does not depend on the date-range
    settings, which it carries along untouched. *)
Lemma loadRows_with_dateRange r i vs st :
  loadRows i vs (with_dateRange r st) = with_dateRange r (loadRows i vs st).
Proof.
  revert i st. induction vs as [|v vs IH]; intros i st; simpl; [done|].
  rewrite <- IH. f_equal. unfold loadRow. by destruct (rowDate v).
Qed.

Lemma loadData_with_dateRange r today dv st :
  loadData today dv (with_dateRange r st) = with_dateRange r (loadData today dv st).
Proof.
  unfold loadData. destruct dv as [cat|]; [|done].
  rewrite <- loadRows_with_dateRange. done.
Qed.

(** ** The day grid *)

Lemma renderDayGrid_cell st i c :
  renderDayGrid st !! i = Some c →
  isDataDate c = set_has (cellKey c) (selectableKeys st)
  ∧ isSelected c = set_has (cellKey c) (selectedKeys st).
Proof.
  unfold renderDayGrid. destruct (dayGridClamps st) as [mn mx].
  rewrite list_lookup_fmap. destruct (seqZ 0 42 !! i) as [z|]; simpl; [|done].
  by intros [= <-].
Qed.

Lemma renderDayGrid_with_dateRange r st :
  renderDayGrid (with_dateRange r st) = renderDayGrid st.
Proof.
  unfold renderDayGrid.
  destruct (dayGridClamps (with_dateRange r st)), (dayGridClamps st). done.
Qed.

(** ** Filter application and clicks *)

Lemma applyFilterForKeys_target keys additive st tgt :
  filterTarget st = Some tgt →
  applyFilterForKeys keys additive st
  = let sel := if additive then set_add_all keys (selectedKeys st) else set_add_all keys [] in
    (with_selection sel st,
     [applyJsonFilter (Some {| target := tgt; operator := "In"; values := newDate <$> sel |})
                      merge]).
Proof. unfold applyFilterForKeys. intros ->. destruct tgt, additive; reflexivity. Qed.

Lemma applyFilterForKeys_no_target keys additive st :
  filterTarget st = None → applyFilterForKeys keys additive st = (st, []).
Proof. unfold applyFilterForKeys. by intros ->. Qed.

Lemma applyFilterForKeys_frame keys additive st :
  selectableKeys (applyFilterForKeys keys additive st).1 = selectableKeys st
  ∧ lastClickedKey (applyFilterForKeys keys additive st).1 = lastClickedKey st
  ∧ filterTarget (applyFilterForKeys keys additive st).1 = filterTarget st.
Proof. unfold applyFilterForKeys. destruct (filterTarget st) eqn:E; simpl; auto. Qed.

Lemma elem_of_applyFilterForKeys x keys additive st :
  x ∈ selectedKeys (applyFilterForKeys keys additive st).1 →
  x ∈ keys ∨ x ∈ selectedKeys st.
Proof.
  unfold applyFilterForKeys. destruct (filterTarget st); simpl; [|auto].
  destruct additive; simpl; rewrite elem_of_set_add_all; [tauto|].
  rewrite elem_of_nil. tauto.
Qed.

Lemma elem_of_rangeWalk x fuel sel c e keys :
  x ∈ rangeWalk fuel sel c e keys → x ∈ keys ∨ x ∈ sel.
Proof.
  revert c keys. induction fuel as [|fuel IH]; intros c keys; simpl; [auto|].
  destruct (num_le _ _); [|auto].
  intros H. apply IH in H as [H|H]; [|auto].
  destruct (set_has (atUTC c) sel) eqn:E; [|auto].
  apply elem_of_app in H as [H|H]; [auto|].
  apply list_elem_of_singleton in H as ->. right. by apply set_has_true.
Qed.

(** Whatever the branch, a click selects nothing but the clicked key, keys
    already selected, and selectable keys. *)
Lemma elem_of_handleClickDate x key ev st :
  x ∈ selectedKeys (handleClickDate key ev st).1 →
  x = key ∨ x ∈ selectedKeys st ∨ x ∈ selectableKeys st.
Proof.
  unfold handleClickDate.
  destruct (_ && _ && _).
  - match goal with |- context [applyFilterForKeys ?k ?a ?s] =>
      pose proof (elem_of_applyFilterForKeys x k a s) as H;
      destruct (applyFilterForKeys k a s) as [st' calls] end.
    simpl in *. intros Hx. apply H in Hx as [Hx|Hx]; [|auto].
    apply elem_of_rangeWalk in Hx as [Hx|Hx]; [|auto]. by apply elem_of_nil in Hx.
  - destruct (_ && _).
    + match goal with |- context [applyFilterForKeys ?k ?a ?s] =>
        pose proof (elem_of_applyFilterForKeys x k a s) as H;
        destruct (applyFilterForKeys k a s) as [st' calls] end.
      simpl in *. intros Hx. apply H in Hx.
      destruct (set_has key (selectedKeys st)).
      * destruct Hx as [Hx|Hx]; apply elem_of_set_delete in Hx; tauto.
      * destruct Hx as [Hx|Hx]; apply elem_of_set_add in Hx; tauto.
    + match goal with |- context [applyFilterForKeys ?k ?a ?s] =>
        pose proof (elem_of_applyFilterForKeys x k a s) as H;
        destruct (applyFilterForKeys k a s) as [st' calls] end.
      simpl in *. intros Hx. apply H in Hx.
      destruct Hx as [Hx|Hx].
      * apply list_elem_of_singleton in Hx. auto.
      * apply elem_of_set_add in Hx as [Hx|Hx]; [auto|]. by apply elem_of_nil in Hx.
Qed.

Lemma handleClickDate_frame key ev st :
  selectableKeys (handleClickDate key ev st).1 = selectableKeys st
  ∧ filterTarget (handleClickDate key ev st).1 = filterTarget st
  ∧ lastClickedKey (handleClickDate key ev st).1 = Some key.
Proof.
  unfold handleClickDate.
  repeat match goal with
  | |- context [if ?b then _ else _] => destruct b
  | |- context [applyFilterForKeys ?k ?a ?s] =>
      pose proof (applyFilterForKeys_frame k a s) as (?&?&?);
      destruct (applyFilterForKeys k a s) as [st' calls]
  end; simpl in *; auto.
Qed.

(** Whatever happens, the host only ever receives a merge of an "In" filter
    or the removal of the filter. *)
Lemma applyFilterForKeys_calls keys additive st :
  Forall well_shaped (applyFilterForKeys keys additive st).2.
Proof.
  unfold applyFilterForKeys. destruct (filterTarget st); cbn [snd]; repeat constructor.
Qed.

Lemma handleClickDate_calls key ev st : Forall well_shaped (handleClickDate key ev st).2.
Proof.
  unfold handleClickDate.
  repeat match goal with
  | |- context [if ?b then _ else _] => destruct b
  | |- context [applyFilterForKeys ?k ?a ?s] =>
      pose proof (applyFilterForKeys_calls k a s);
      destruct (applyFilterForKeys k a s) as [st' calls]
  end; done.
Qed.

Lemma step_calls op st : Forall well_shaped (step op st).2.
Proof.
  destruct op as [today o dv|i ev| |fw| |i]; cbn [step]; try by constructor.
  - destruct (viewMode st); try by constructor.
    destruct (renderDayGrid st !! i) as [c|]; [|by constructor].
    unfold clickCell. destruct (isDataDate c); [apply handleClickDate_calls|by constructor].
  - unfold clearSelection. cbn [snd filterTarget with_lastClicked with_selection].
    destruct (filterTarget st); repeat constructor.
  - destruct (bool_decide _); [|by constructor]. destruct (viewMode st); by constructor.
Qed.

Lemma run_calls ops st : Forall well_shaped (run ops st).2.
Proof.
  revert st. induction ops as [|op ops IH]; intros st; cbn [run]; [by constructor|].
  pose proof (step_calls op st) as H1. destruct (step op st) as [st1 calls1].
  pose proof (IH st1) as H2. destruct (run ops st1) as [st2 calls2].
  by apply Forall_app.
Qed.

(** * The claims *)

(** ** C1 *)

(** C1, as the code has it: every request of the filter-application path
    asks the host to merge, whether the change is additive or not.  A
    non-additive change replaces [selectedKeys] by the given keys first; the
    filter is an "In" filter whose values are the whole resulting selection. *)
Theorem filter_application_always_merges keys additive st call :
  call ∈ (applyFilterForKeys keys additive st).2 →
  call_action call = merge
  ∧ selectedKeys (applyFilterForKeys keys additive st).1
    = (if additive then set_add_all keys (selectedKeys st) else set_add_all keys [])
  ∧ ∃ f, call_filter call = Some f
         ∧ operator f = "In"%string
         ∧ Some (target f) = filterTarget st
         ∧ values f = newDate <$> selectedKeys (applyFilterForKeys keys additive st).1.
Proof.
  destruct (filterTarget st) as [tgt|] eqn:E.
  - rewrite (applyFilterForKeys_target _ _ _ _ E). cbn [fst snd].
    intros ->%list_elem_of_singleton. cbn [call_action call_filter].
    split; [done|]. split; [by destruct additive|].
    eexists. split; [done|]. cbn [operator target values selectedKeys with_selection].
    by destruct additive.
  - rewrite (applyFilterForKeys_no_target _ _ _ E). cbn [snd]. by intros ?%elem_of_nil.
Qed.

Lemma filter_application_always_merges_witness :
  call_action
    (applyJsonFilter
       (Some {| target := {| table := str "Sales"; column := str "Date" |};
                operator := "In";
                values := [mkDate (day_key 2024 3 4)] |}) merge) = merge
  ∧ selectedKeys (applyFilterForKeys [day_key 2024 3 4] false
                    (with_selection [day_key 2024 3 3] (opened "Sales.Date" [3; 4; 5]))).1
    = set_add_all [day_key 2024 3 4] []
  ∧ ∃ f, call_filter
           (applyJsonFilter
              (Some {| target := {| table := str "Sales"; column := str "Date" |};
                       operator := "In";
                       values := [mkDate (day_key 2024 3 4)] |}) merge) = Some f
         ∧ operator f = "In"%string
         ∧ Some (target f)
           = filterTarget (with_selection [day_key 2024 3 3] (opened "Sales.Date" [3; 4; 5]))
         ∧ values f
           = newDate <$> selectedKeys
               (applyFilterForKeys [day_key 2024 3 4] false
                  (with_selection [day_key 2024 3 3] (opened "Sales.Date" [3; 4; 5]))).1.
Proof.
  apply (filter_application_always_merges [day_key 2024 3 4] false
           (with_selection [day_key 2024 3 3] (opened "Sales.Date" [3; 4; 5]))).
  vm_compute. left.
Defined.

(** C1 fails as stated: a non-additive change (a plain click on 4 March
    while 3 March is selected) replaces the selection and still asks the host
    to merge. *)
Lemma non_additive_change_requests_merge :
  applyFilterForKeys [day_key 2024 3 4] false
    (with_selection [day_key 2024 3 3] (opened "Sales.Date" [3; 4; 5]))
  = (with_selection [day_key 2024 3 4] (opened "Sales.Date" [3; 4; 5]),
     [applyJsonFilter
        (Some {| target := {| table := str "Sales"; column := str "Date" |};
                 operator := "In";
                 values := [mkDate (day_key 2024 3 4)] |}) merge])
  ∧ call_action <$> (handleClickDate (day_key 2024 3 4) ev_plain
                       (with_selection [day_key 2024 3 3] (opened "Sales.Date" [3; 4; 5]))).2
    = [merge].
Proof. split; vm_compute; reflexivity. Qed.

(** ** C2 *)

Lemma subseteq_by_computation (l1 l2 : JSSet) :
  forallb (λ x, set_has x l2) l1 = true → l1 ⊆ l2.
Proof.
  rewrite forallb_forall. intros H x Hx. apply set_has_true, H. by apply list_elem_of_In.
Qed.

Lemma clearSelection_contained st : contained (clearSelection st).1.
Proof. unfold contained. simpl. apply list_subseteq_nil. Qed.

Lemma clickCell_contained st i c ev :
  renderDayGrid st !! i = Some c → contained st → contained (clickCell c ev st).1.
Proof.
  intros Hc Hst. unfold clickCell.
  destruct (renderDayGrid_cell st i c Hc) as [Hd _]. rewrite Hd.
  destruct (set_has (cellKey c) (selectableKeys st)) eqn:E; [|done].
  apply set_has_true in E. intros x Hx.
  destruct (handleClickDate_frame (cellKey c) ev st) as (-> & _).
  apply elem_of_handleClickDate in Hx as [->|[Hx|Hx]]; auto.
Qed.

(** One event keeps the selection among the selectable keys; an update is
    asked to keep the selected keys selectable. *)
Lemma step_contained op st :
  match op with
  | OpUpdate today o dv => selectedKeys st ⊆ selectableKeys (update today o dv st).1
  | _ => True
  end →
  contained st → contained (step op st).1.
Proof.
  intros Hop Hst. destruct op as [today o dv|i ev| |fw| |i]; simpl.
  - unfold contained. simpl. simpl in Hop.
    by destruct (loadData_selection today dv (readSettings o st)) as [-> _].
  - destruct (viewMode st); try done.
    destruct (renderDayGrid st !! i) as [c|] eqn:Hc; [|done].
    by eapply clickCell_contained.
  - apply clearSelection_contained.
  - unfold navButton. destruct (viewMode st), fw; exact Hst.
  - exact Hst.
  - destruct (bool_decide _); [|done]. destruct (viewMode st); exact Hst.
Qed.

Lemma run_cons op ops st :
  (run (op :: ops) st).1 = (run ops (step op st).1).1.
Proof.
  cbn [run]. destruct (step op st) as [st1 c1]. cbn [fst].
  destruct (run ops st1). reflexivity.
Qed.

Lemma run_contained ops st :
  contained st → updates_keep_selection ops st → contained (run ops st).1.
Proof.
  revert st. induction ops as [|op ops IH]; intros st Hst Hops; [done|].
  destruct Hops as [Hop Hops]. rewrite run_cons. apply IH; [|done].
  by apply step_contained.
Qed.

(** C2, as the code has it: starting from the constructor's state, after any
    sequence of updates, clicks on grid cells (whatever the modifier keys),
    clears and navigation, every selected key is selectable, provided each
    update keeps the keys selected at that moment selectable.  (An update
    does not drop stale keys.) *)
Theorem selection_contained_while_updates_keep_it today ops :
  updates_keep_selection ops (initial today) →
  contained (run ops (initial today)).1.
Proof. apply run_contained. apply list_subseteq_nil. Qed.

Lemma selection_contained_while_updates_keep_it_witness :
  contained
    (run [OpUpdate (2024, 2) no_objects (march "Sales.Date" [3; 4; 5]);
          OpClickDay 7 ev_plain; OpClickDay 8 ev_shift; OpClickDay 6 ev_ctrl;
          OpUpdate (2024, 2) no_objects (march "Sales.Date" [3; 4; 5; 6])]
       (initial (2024, 2))).1.
Proof.
  apply (selection_contained_while_updates_keep_it (2024, 2)).
  cbn [updates_keep_selection]. repeat split; apply subseteq_by_computation; vm_compute; reflexivity.
Defined.

(** C2 fails as stated: select 4 March, then rebuild the data without it;
    the key stays selected and is no longer selectable. *)
Lemma stale_key_survives_rebuild :
  selectedKeys
    (run [OpUpdate (2024, 2) no_objects (march "Sales.Date" [3; 4; 5]);
          OpClickDay 7 ev_plain;
          OpUpdate (2024, 2) no_objects (march "Sales.Date" [3; 5])]
       (initial (2024, 2))).1
  = [day_key 2024 3 4]
  ∧ selectableKeys
      (run [OpUpdate (2024, 2) no_objects (march "Sales.Date" [3; 4; 5]);
            OpClickDay 7 ev_plain;
            OpUpdate (2024, 2) no_objects (march "Sales.Date" [3; 5])]
         (initial (2024, 2))).1
    = [day_key 2024 3 3; day_key 2024 3 5]
  ∧ set_has (day_key 2024 3 4) [day_key 2024 3 3; day_key 2024 3 5] = false.
Proof. vm_compute. done. Qed.

(** ** C3 *)

(** C3, as the code has it: an update rebuilds the selectable keys and
    leaves [selectedKeys] and [lastClickedKey] as they were, stale keys
    included, and the host receives nothing. *)
Theorem update_keeps_selection today o dv st :
  selectedKeys (update today o dv st).1 = selectedKeys st
  ∧ lastClickedKey (update today o dv st).1 = lastClickedKey st
  ∧ (update today o dv st).2 = [].
Proof.
  unfold update. cbn [fst snd].
  destruct (loadData_selection today dv (readSettings o st)) as [-> ->]. done.
Qed.

(** C3 fails as stated: with 3, 4 and 5 March selected, rebuilding the data
    with 3 and 5 March only leaves all three selected, and no request goes
    to the host. *)
Lemma rebuild_does_not_reconcile :
  selectedKeys (opened "Sales.Date" [3; 4; 5]) = []
  ∧ selectedKeys
      (run [OpClickDay 6 ev_plain; OpClickDay 7 ev_ctrl; OpClickDay 8 ev_ctrl]
         (opened "Sales.Date" [3; 4; 5])).1
    = [day_key 2024 3 3; day_key 2024 3 4; day_key 2024 3 5]
  ∧ selectableKeys
      (update (2024, 2) no_objects (march "Sales.Date" [3; 5])
         (run [OpClickDay 6 ev_plain; OpClickDay 7 ev_ctrl; OpClickDay 8 ev_ctrl]
            (opened "Sales.Date" [3; 4; 5])).1).1
    = [day_key 2024 3 3; day_key 2024 3 5]
  ∧ selectedKeys
      (update (2024, 2) no_objects (march "Sales.Date" [3; 5])
         (run [OpClickDay 6 ev_plain; OpClickDay 7 ev_ctrl; OpClickDay 8 ev_ctrl]
            (opened "Sales.Date" [3; 4; 5])).1).1
    = [day_key 2024 3 3; day_key 2024 3 4; day_key 2024 3 5]
  ∧ (update (2024, 2) no_objects (march "Sales.Date" [3; 5])
       (run [OpClickDay 6 ev_plain; OpClickDay 7 ev_ctrl; OpClickDay 8 ev_ctrl]
          (opened "Sales.Date" [3; 4; 5])).1).2
    = [].
Proof. vm_compute. done. Qed.

(** ** C4 *)

(** C4, as the code has it: the rejection is the grid's.  A cell whose key
    is not selectable gets no handler, so a click on it, with any modifier
    keys, changes nothing and sends nothing. *)
Theorem click_on_disabled_cell_is_noop st i c ev :
  renderDayGrid st !! i = Some c →
  cellKey c ∉ selectableKeys st →
  isDataDate c = false ∧ clickCell c ev st = (st, []).
Proof.
  intros Hc Hk. destruct (renderDayGrid_cell st i c Hc) as [Hd _].
  apply set_has_false in Hk. rewrite Hk in Hd. unfold clickCell. by rewrite Hd.
Qed.

Lemma click_on_disabled_cell_is_noop_witness :
  renderDayGrid (opened "Sales.Date" [3; 5]) !! 7%nat
  = Some {| cellKey := day_key 2024 3 4; cellText := Some 4; inMonth := true;
            weekNum := None; isDataDate := false; isSelected := false |}
  ∧ isDataDate {| cellKey := day_key 2024 3 4; cellText := Some 4; inMonth := true;
                  weekNum := None; isDataDate := false; isSelected := false |} = false
  ∧ clickCell {| cellKey := day_key 2024 3 4; cellText := Some 4; inMonth := true;
                 weekNum := None; isDataDate := false; isSelected := false |}
      ev_shift (opened "Sales.Date" [3; 5])
    = (opened "Sales.Date" [3; 5], []).
Proof.
  split; [vm_compute; reflexivity|].
  apply (click_on_disabled_cell_is_noop (opened "Sales.Date" [3; 5]) 7).
  - vm_compute. reflexivity.
  - apply set_has_false. vm_compute. reflexivity.
Defined.

(** C4 fails as stated: [handleClickDate] itself does not look the key up.
    Called on 4 March, which the data does not have, it selects it, makes it
    the anchor and sends a filter. *)
Lemma handleClickDate_accepts_unavailable_key :
  set_has (day_key 2024 3 4) (selectableKeys (opened "Sales.Date" [3; 5])) = false
  ∧ selectedKeys (handleClickDate (day_key 2024 3 4) ev_plain
                    (opened "Sales.Date" [3; 5])).1 = [day_key 2024 3 4]
  ∧ lastClickedKey (handleClickDate (day_key 2024 3 4) ev_plain
                      (opened "Sales.Date" [3; 5])).1 = Some (day_key 2024 3 4)
  ∧ (handleClickDate (day_key 2024 3 4) ev_plain (opened "Sales.Date" [3; 5])).2
    = [applyJsonFilter
         (Some {| target := {| table := str "Sales"; column := str "Date" |};
                  operator := "In";
                  values := [mkDate (day_key 2024 3 4)] |}) merge].
Proof. vm_compute. done. Qed.


(** ** C5 *)

(** A query name without a dot gives no filter target. *)
Lemma lastIndexOf_from_absent c s i acc :
  c ∉ s → lastIndexOf_from c s i acc = acc.
Proof.
  revert i acc. induction s as [|x s IH]; intros i acc Hc; simpl; [done|].
  apply not_elem_of_cons in Hc as [Hx Hs].
  destruct (N.eqb_spec x c); [congruence|]. by apply IH.
Qed.

Lemma no_dot_no_target qn : 46%N ∉ qn → filterTargetOf (Some qn) = None.
Proof.
  intros H. unfold filterTargetOf, lastIndexOf. by rewrite lastIndexOf_from_absent.
Qed.

(** Without a filter target no click sends anything. *)
Lemma click_without_target_sends_nothing key ev st :
  filterTarget st = None → (handleClickDate key ev st).2 = [].
Proof.
  intros E. unfold handleClickDate.
  repeat match goal with
  | |- context [if ?b then _ else _] => destruct b
  end;
  rewrite applyFilterForKeys_no_target by done; done.
Qed.

(** A single or multi click tracks the selection in [handleClickDate]
    itself, so the filter target makes no difference to it. *)
Lemma single_and_multi_click_ignore_target ft key ev st :
  rangeKey ev st = false →
  selectedKeys (handleClickDate key ev (with_filterTarget ft st)).1
  = selectedKeys (handleClickDate key ev st).1
  ∧ lastClickedKey (handleClickDate key ev (with_filterTarget ft st)).1
    = lastClickedKey (handleClickDate key ev st).1.
Proof.
  intros Hr. split.
  2: { destruct (handleClickDate_frame key ev st) as (_ & _ & ->).
       by destruct (handleClickDate_frame key ev (with_filterTarget ft st)) as (_ & _ & ->). }
  unfold handleClickDate. unfold rangeKey in Hr.
  cbn [selectionSettings lastClickedKey selectedKeys with_filterTarget]. rewrite Hr.
  clear Hr.
  assert (Hsel : ∀ keys (additive : bool) s,
    set_add_all keys (if additive then selectedKeys s else []) = selectedKeys s →
    selectedKeys (applyFilterForKeys keys additive s).1 = selectedKeys s).
  { intros keys additive s H. unfold applyFilterForKeys.
    destruct (filterTarget s); [|done]. by destruct additive. }
  destruct (multiSelect (selectionSettings st) && (ctrlKey ev || metaKey ev)).
  - set (sel := if set_has key (selectedKeys st) then _ else _).
    pose proof (Hsel sel true (with_selection sel (with_filterTarget ft st))) as H1.
    pose proof (Hsel sel true (with_selection sel st)) as H2.
    destruct (applyFilterForKeys sel true (with_selection sel (with_filterTarget ft st))).
    destruct (applyFilterForKeys sel true (with_selection sel st)).
    cbn in *. rewrite H1, H2; auto using set_add_all_present.
  - pose proof (Hsel [key] false (with_selection (set_add key []) (with_filterTarget ft st))) as H1.
    pose proof (Hsel [key] false (with_selection (set_add key []) st)) as H2.
    destruct (applyFilterForKeys [key] false (with_selection (set_add key []) (with_filterTarget ft st))).
    destruct (applyFilterForKeys [key] false (with_selection (set_add key []) st)).
    cbn in *. rewrite H1, H2; auto.
Qed.

(** C5 at the failing input: all of March is in the data, 5 March has been
    clicked, and 10 March is shift-clicked.  With the column bound as
    "Sales.Date" the selection grows to 5..10 March; bound as "Date" (no
    dot, so no filter target) the anchor moves to the 10th but the selection
    stays at the 5th alone. *)
Theorem range_click_not_tracked_without_target :
  filterTarget (march_5_clicked "Date") = None
  ∧ selectedKeys (march_5_clicked "Date") = selectedKeys (march_5_clicked "Sales.Date")
  ∧ lastClickedKey (march_5_clicked "Date") = lastClickedKey (march_5_clicked "Sales.Date")
  ∧ selectableKeys (march_5_clicked "Date") = selectableKeys (march_5_clicked "Sales.Date")
  ∧ selectedKeys (step (OpClickDay 13 ev_shift) (march_5_clicked "Sales.Date")).1
    = (λ d, day_key 2024 3 d) <$> [5; 6; 7; 8; 9; 10]
  ∧ selectedKeys (step (OpClickDay 13 ev_shift) (march_5_clicked "Date")).1
    = [day_key 2024 3 5]
  ∧ lastClickedKey (step (OpClickDay 13 ev_shift) (march_5_clicked "Date")).1
    = Some (day_key 2024 3 10)
  ∧ (step (OpClickDay 13 ev_shift) (march_5_clicked "Date")).2 = [].
Proof. vm_compute. done. Qed.

(** ** C6 *)

(** The range branch when there is a filter target: the anchor [p] and the
    clicked key [k] are whole days, from the year 100 on. *)
Section range_click_with_target.

Context (st : Visual) (ev : MouseEvent) (tgt : FilterTarget) (p k : Z).
Hypothesis range_on : rangeSelect (selectionSettings st) = true.
Hypothesis shift_held : shiftKey ev = true.
Hypothesis anchor : lastClickedKey st = Some (Some (ES.msPerDay * p)).
Hypothesis has_target : filterTarget st = Some tgt.
Hypothesis p_in_range : day_in_range p.
Hypothesis k_in_range : day_in_range k.
Hypothesis p_year : 100 ≤ ES.YearFromDay p.
Hypothesis k_year : 100 ≤ ES.YearFromDay k.

Let st' : Visual := (handleClickDate (Some (ES.msPerDay * k)) ev st).1.
Let interval : list number :=
  filter (λ x, x ∈ selectableKeys st) (days_between (Z.min p k) (Z.max p k)).

Lemma range_walk_of_click a b :
  day_in_range a → day_in_range b →
  100 ≤ ES.YearFromDay a → 100 ≤ ES.YearFromDay b →
  rangeWalk (rangeFuel (newDate (Some (ES.msPerDay * a))) (newDate (Some (ES.msPerDay * b))))
    (selectableKeys st) (newDate (Some (ES.msPerDay * a)))
    (newDate (Some (ES.msPerDay * b))) []
  = filter (λ x, x ∈ selectableKeys st) (days_between a b).
Proof.
  intros Ha Hb Ya Yb. rewrite !newDate_whole by done.
  rewrite (rangeWalk_days _ _ a b []); try done.
  unfold rangeFuel. rewrite !atUTC_whole_day by (auto; lia).
  unfold ES.msPerDay. zlia.
Qed.

(** The selectable keys of the closed interval of days between the anchor
    and the clicked key are added to the selection, in day order. *)
Lemma range_click_selection : selectedKeys st' = set_add_all interval (selectedKeys st).
Proof.
  subst st' interval. unfold handleClickDate. rewrite range_on, shift_held, anchor.
  rewrite bool_decide_eq_true_2 by done. cbn [andb default from_option id num_lt].
  destruct (Z.ltb_spec (ES.msPerDay * k) (ES.msPerDay * p)) as [Hlt|Hge].
  - assert (k < p) by (revert Hlt; unfold ES.msPerDay; lia).
    rewrite Z.min_r, Z.max_l by lia. cbv iota.
    rewrite (range_walk_of_click k p) by done.
    by rewrite (applyFilterForKeys_target _ _ _ _ has_target).
  - assert (p ≤ k) by (revert Hge; unfold ES.msPerDay; lia).
    rewrite Z.min_l, Z.max_r by lia. cbv iota.
    rewrite (range_walk_of_click p k) by done.
    by rewrite (applyFilterForKeys_target _ _ _ _ has_target).
Qed.

(** Nothing is removed, exactly the interval's selectable keys come in, and
    the clicked key becomes the anchor. *)
Lemma range_click_adds_interval :
  (∀ x, x ∈ selectedKeys st' ↔
        x ∈ selectedKeys st
        ∨ (x ∈ selectableKeys st
           ∧ ∃ i, Z.min p k ≤ i ≤ Z.max p k ∧ x = Some (ES.msPerDay * i)))
  ∧ lastClickedKey st' = Some (Some (ES.msPerDay * k)).
Proof.
  split; [|apply handleClickDate_frame].
  intros x. rewrite range_click_selection. subst interval.
  rewrite elem_of_set_add_all, list_elem_of_filter, elem_of_days_between. tauto.
Qed.

End range_click_with_target.

(** C6 at the failing input (the one of C5): bound as "Date", the column
    gives no filter target, and the shift-click on 10 March after the click
    on 5 March adds none of the selectable days 6..10 March. *)
Theorem range_click_adds_nothing_without_target :
  rangeKey ev_shift (march_5_clicked "Date") = true
  ∧ lastClickedKey (march_5_clicked "Date") = Some (day_key 2024 3 5)
  ∧ filter (λ x, x ∈ selectableKeys (march_5_clicked "Date"))
           (days_between (day_number 2024 3 5) (day_number 2024 3 10))
    = (λ d, day_key 2024 3 d) <$> [5; 6; 7; 8; 9; 10]
  ∧ set_has (day_key 2024 3 10)
      (selectedKeys (handleClickDate (day_key 2024 3 10) ev_shift
                       (march_5_clicked "Date")).1) = false
  ∧ selectedKeys (handleClickDate (day_key 2024 3 10) ev_shift (march_5_clicked "Date")).1
    = [day_key 2024 3 5].
Proof. vm_compute. done. Qed.

(** ** C7 *)

Lemma parseISODate_Some_shape s dt :
  parseISODate (Some s) = Some dt → ∃ y m d, iso_shape s y m d.
Proof.
  unfold parseISODate. destruct s as [|c s]; [done|].
  destruct (iso_exec (c :: s)) as [[[y m] d]|] eqn:E; [|done].
  intros _. exists y, m, d. by apply iso_exec_Some.
Qed.

Lemma day_number_in_range y m d :
  100 ≤ y ≤ 9999 → valid_calendar_date y m d → day_in_range (day_number y m d).
Proof.
  intros Hy Hv. destruct (fields_of_day_number y m d Hv) as (HY & _).
  pose proof (YearFromDay_spec (day_number y m d)) as Hs. rewrite HY in Hs.
  pose proof (DayFromYear_le 100 y ltac:(lia)).
  pose proof (DayFromYear_le (y + 1) 10000 ltac:(lia)).
  assert (ES.DayFromYear 100 = -683003) by reflexivity.
  assert (ES.DayFromYear 10000 = 2932897) by reflexivity.
  unfold day_in_range. lia.
Qed.

Lemma parseISODate_valid s y m d :
  iso_shape s y m d →
  100 ≤ digits_value y →
  valid_calendar_date (digits_value y) (digits_value m) (digits_value d) →
  parseISODate (Some s)
  = Some (mkDate (day_key (digits_value y) (digits_value m) (digits_value d))).
Proof.
  intros Hs Hy Hv. pose proof Hs as (w1 & w2 & Es & _ & _ & Ly & Lm & Ld & Dy & Dm & Dd).
  apply iso_exec_Some in Hs. unfold parseISODate.
  destruct s as [|c s]; [by destruct w1, y|]. rewrite Hs.
  rewrite !parseInt10_digits by (done || by intros ->).
  cbn [num_sub mbind option_bind].
  rewrite Date_UTC_Some, MakeFullYear_id by lia.
  fold (day_number (digits_value y) (digits_value m) (digits_value d)).
  pose proof (digits_value_bounds y Dy) as By. rewrite Ly in By.
  assert (Hr : day_in_range (day_number (digits_value y) (digits_value m) (digits_value d))).
  { apply day_number_in_range; [|done]. change (10 ^ Z.of_nat 4) with 10000 in By. lia. }
  rewrite TimeClip_in_range by by apply day_in_range_abs.
  rewrite newDate_whole by done. reflexivity.
Qed.

(** Whatever four, two and two digits say, [Date.UTC] finds a day for them
    inside the time range. *)
Lemma MakeDay_bounds y m d :
  0 ≤ y ≤ 9999 → -1 ≤ m ≤ 98 → 0 ≤ d ≤ 99 →
  day_in_range (ES.MakeDay (ES.MakeFullYear y) m d).
Proof.
  intros Hy Hm Hd. unfold ES.MakeDay.
  assert (0 ≤ ES.MakeFullYear y ≤ 9999) as Hf.
  { unfold ES.MakeFullYear. destruct (_ && _) eqn:E; [|lia].
    apply andb_true_iff in E as [?%Z.leb_le ?%Z.leb_le]. lia. }
  assert (-1 ≤ m / 12 ≤ 8) as Hq by zlia.
  pose proof (MonthStart_bounds (ES.MakeFullYear y + m / 12) (m mod 12)).
  pose proof (DayFromYear_le (-1) (ES.MakeFullYear y + m / 12) ltac:(lia)).
  pose proof (DayFromYear_le (ES.MakeFullYear y + m / 12) 10007 ltac:(lia)).
  assert (ES.DayFromYear (-1) = -719893) by reflexivity.
  assert (ES.DayFromYear 10007 = 2935454) by reflexivity.
  unfold day_in_range. lia.
Qed.

(** So the time value is never [NaN], and the [isNaN] test of the parser
    lets every string of the shape through. *)
Lemma parseISODate_of_shape s y m d :
  iso_shape s y m d →
  parseISODate (Some s)
  = Some (mkDate (Some (ES.msPerDay
                        * ES.MakeDay (ES.MakeFullYear (digits_value y))
                                     (digits_value m - 1) (digits_value d)))).
Proof.
  intros Hs. pose proof Hs as (w1 & w2 & Es & _ & _ & Ly & Lm & Ld & Dy & Dm & Dd).
  apply iso_exec_Some in Hs. unfold parseISODate.
  destruct s as [|c s]; [by destruct w1, y|]. rewrite Hs.
  rewrite !parseInt10_digits by (done || by intros ->).
  cbn [num_sub mbind option_bind]. rewrite Date_UTC_Some.
  pose proof (digits_value_bounds y Dy) as By. rewrite Ly in By.
  pose proof (digits_value_bounds m Dm) as Bm. rewrite Lm in Bm.
  pose proof (digits_value_bounds d Dd) as Bd. rewrite Ld in Bd.
  change (10 ^ Z.of_nat 4) with 10000 in By.
  change (10 ^ Z.of_nat 2) with 100 in Bm, Bd.
  assert (Hr : day_in_range (ES.MakeDay (ES.MakeFullYear (digits_value y))
                               (digits_value m - 1) (digits_value d))).
  { apply MakeDay_bounds; lia. }
  rewrite TimeClip_in_range by by apply day_in_range_abs.
  rewrite newDate_whole by done. reflexivity.
Qed.

(** C7 does not hold of the code: the parser means to reject a string that
    names no calendar date, by testing its time value with [isNaN], but
    [Date.UTC] carries the day over instead of giving [NaN], so the test
    never rejects anything and the parser accepts every string of the
    4-2-2 shape.  "2023-02-30" has the shape, February 2023 has 28 days, and
    the parser answers 2 March 2023; a column holding that string makes
    2 March 2023 a selectable date, whatever [new Date] made of the string. *)
Theorem parseISODate_rolls_over_invalid_dates :
  (∀ s, is_Some (parseISODate (Some s)) ↔ ∃ y m d, iso_shape s y m d)
  ∧ iso_shape (str "2023-02-30") (str "2023") (str "02") (str "30")
  ∧ days_in_month 2023 2 = 28
  ∧ parseISODate (Some (str "2023-02-30")) = Some (mkDate (day_key 2023 3 2))
  ∧ (∀ a, selectableKeys
            (update (2024, 2) no_objects
               (Some {| queryName := Some (str "Sales.Date");
                        catValues := [RawOther (str "2023-02-30") a] |})
               (initial (2024, 2))).1
          = [day_key 2023 3 2]).
Proof.
  split_and!.
  - intros s. split.
    + intros [dt H]. by apply parseISODate_Some_shape in H.
    + intros (y & m & d & H). rewrite (parseISODate_of_shape s y m d H). by eexists.
  - exists [], []. vm_compute. done.
  - reflexivity.
  - vm_compute. done.
  - intros a. vm_compute. done.
Qed.

(** ** C8 *)

(** C8: clearing empties the selection, forgets the anchor and, when there
    is a filter target, asks the host to remove the filter (the [null]
    filter with the remove action); without a target it sends nothing.  No
    "In" filter is ever built. *)
Theorem clearSelection_removes_filter st :
  selectedKeys (clearSelection st).1 = []
  ∧ lastClickedKey (clearSelection st).1 = None
  ∧ (clearSelection st).2
    = match filterTarget st with
      | Some _ => [applyJsonFilter None remove]
      | None => []
      end
  ∧ Forall (λ c, call_filter c = None ∧ call_action c = remove) (clearSelection st).2.
Proof.
  unfold clearSelection.
  cbn [fst snd selectedKeys lastClickedKey filterTarget with_lastClicked with_selection].
  destruct (filterTarget st); repeat split; auto.
Qed.


(** ** C9 *)

Lemma getISOWeek_whole_day t :
  ¬ (0 ≤ ES.YearFromTime t ≤ 99) →
  getISOWeek (mkDate (Some t)) = getISOWeek (mkDate (Some (ES.msPerDay * ES.Day t))).
Proof.
  intros Hy. unfold getISOWeek.
  assert (H : Date_UTC (getUTCFullYear (mkDate (Some t))) (getUTCMonth (mkDate (Some t)))
                (getUTCDate (mkDate (Some t)))
              = Date_UTC (getUTCFullYear (mkDate (Some (ES.msPerDay * ES.Day t))))
                  (getUTCMonth (mkDate (Some (ES.msPerDay * ES.Day t))))
                  (getUTCDate (mkDate (Some (ES.msPerDay * ES.Day t))))).
  { pose proof (Date_UTC_fields t 0) as H1.
    pose proof (Date_UTC_fields (ES.msPerDay * ES.Day t) 0) as H2.
    rewrite !Z.add_0_r in H1, H2.
    change (Date_UTC (Some (ES.YearFromTime t)) (Some (ES.MonthFromTime t))
              (Some (ES.DateFromTime t))
            = Date_UTC (Some (ES.YearFromTime (ES.msPerDay * ES.Day t)))
                (Some (ES.MonthFromTime (ES.msPerDay * ES.Day t)))
                (Some (ES.DateFromTime (ES.msPerDay * ES.Day t)))).
    rewrite H1, H2, Day_whole; [done| |done].
    unfold ES.YearFromTime in *. by rewrite Day_whole. }
  by rewrite H.
Qed.

(** C9, as the code has it: on every valid date of the years -271819 to -2
    and 101 to 275759 [getISOWeek] is the ISO-8601 week number: the Thursday
    of the date's Monday-to-Sunday week gives the week its year, and weeks
    count from the one holding that year's first Thursday.  (The years left
    out are those in which the date, or the Thursday of its week, falls in
    the years 0 to 99, which [Date.UTC] reads as 1900 to 1999, or off the
    ends of the time range.)  1 January 2023, a Sunday, is in week 52. *)
Theorem getISOWeek_follows_iso_8601 t :
  Z.abs t ≤ ES.maxTime →
  -271819 ≤ ES.YearFromTime t ≤ -2 ∨ 101 ≤ ES.YearFromTime t ≤ 275759 →
  getISOWeek (mkDate (Some t)) = Some (iso_week (ES.Day t)).
Proof.
  intros Ht Hy. rewrite getISOWeek_whole_day by lia.
  pose proof (Day_in_range t Ht) as Hd. unfold ES.YearFromTime in *.
  set (d := ES.Day t) in *.
  pose proof (YearFromDay_spec d) as [Hlo Hhi].
  destruct (thursday_of_week_spec d) as [_ Hth].
  pose proof (YearFromDay_spec (thursday_of_week d)) as [Hj Hj'].
  assert (Emin : ES.DayFromYear (-271820) = -99999744) by reflexivity.
  assert (Em1 : ES.DayFromYear (-1) = -719893) by reflexivity.
  assert (E0 : ES.DayFromYear 0 = -719528) by reflexivity.
  assert (E101 : ES.DayFromYear 101 = -682638) by reflexivity.
  assert (E100 : ES.DayFromYear 100 = -683003) by reflexivity.
  assert (Emax : ES.DayFromYear 275760 = 99999744) by reflexivity.
  destruct Hy as [[Hy1 Hy2]|[Hy1 Hy2]].
  - pose proof (DayFromYear_le (-271819) (ES.YearFromDay d) ltac:(lia)) as H1.
    pose proof (DayFromYear_le (ES.YearFromDay d + 1) (-1) ltac:(lia)) as H2.
    assert (E : ES.DayFromYear (-271819) = -99999378) by reflexivity.
    assert (Yth : -271820 ≤ ES.YearFromDay (thursday_of_week d)).
    { apply YearFromDay_largest. lia. }
    assert (Yth' : ES.YearFromDay (thursday_of_week d) < 0).
    { destruct (Z.lt_ge_cases (ES.YearFromDay (thursday_of_week d)) 0) as [|Hge]; [done|].
      pose proof (DayFromYear_le 0 _ Hge). lia. }
    pose proof (DayFromYear_le (-271820) _ Yth) as Hj2.
    apply getISOWeek_steps; unfold day_in_range in *; lia.
  - pose proof (DayFromYear_le 101 (ES.YearFromDay d) ltac:(lia)) as H101.
    pose proof (DayFromYear_le (ES.YearFromDay d + 1) 275760 ltac:(lia)) as Hmax.
    assert (Yth : 100 ≤ ES.YearFromDay (thursday_of_week d)).
    { apply YearFromDay_largest. lia. }
    pose proof (DayFromYear_le 100 _ Yth) as Hj2.
    apply getISOWeek_steps; unfold day_in_range in *; lia.
Qed.

Lemma getISOWeek_follows_iso_8601_witness :
  getISOWeek (mkDate (Some 1672531200000)) = Some (iso_week (ES.Day 1672531200000))
  ∧ day_key 2023 1 1 = Some 1672531200000
  ∧ getUTCDay (mkDate (Some 1672531200000)) = Some 0
  ∧ iso_week (ES.Day 1672531200000) = 52.
Proof.
  split; [|by vm_compute].
  apply (getISOWeek_follows_iso_8601 1672531200000).
  - vm_compute. discriminate.
  - right. vm_compute. split; discriminate.
Defined.

(** C9 fails as stated: 2 January 0000 is a Sunday of week 52 (of the year
    before), and [getISOWeek] answers 1, the week of 2 January 1900.  The
    date reaches [getISOWeek] from the day grid: with weeks starting on
    Sunday and week numbers shown, it begins the last row of the grid of
    December of the year -1, which the previous button leads to. *)
Lemma getISOWeek_wrong_in_year_0 :
  getUTCFullYear (mkDate (Some (-62167132800000))) = Some 0
  ∧ getUTCMonth (mkDate (Some (-62167132800000))) = Some 0
  ∧ getUTCDate (mkDate (Some (-62167132800000))) = Some 2
  ∧ getUTCDay (mkDate (Some (-62167132800000))) = Some 0
  ∧ iso_week (ES.Day (-62167132800000)) = 52
  ∧ getISOWeek (mkDate (Some (-62167132800000))) = Some 1
  ∧ (run ([OpUpdate (2024, 2) sunday_weeks_numbered None; OpCycleView]
          ++ replicate 2025 (OpNav false) ++ [OpClickGrid 11])
       (initial (2024, 2))).1
    = december_year_minus_1
  ∧ weekNum <$> renderDayGrid december_year_minus_1 !! 35%nat = Some (Some (Some 1))
  ∧ cellText <$> renderDayGrid december_year_minus_1 !! 35%nat = Some (Some 2)
  ∧ cellKey <$> renderDayGrid december_year_minus_1 !! 35%nat = Some (day_key 1900 1 2).
Proof. vm_compute. done. Qed.

(** ** C10 *)

Lemma readSettings_with_range_entries rdr mn mx o st :
  ∃ r, readSettings (with_range_entries rdr mn mx o) st = with_dateRange r (readSettings o st).
Proof. eexists. unfold readSettings, with_dateRange. cbn. reflexivity. Qed.

(** C10: the date-range settings have no say in what is selectable.  Loading
    the same data under other date-range settings (set in the state, or read
    by [update] from the metadata objects) gives the same selectable keys and
    the same day grid, and a cell of the grid is enabled exactly when its key
    is selectable. *)
Theorem date_range_does_not_affect_selectability today dv st r o rdr mn mx :
  selectableKeys (loadData today dv (with_dateRange r st))
  = selectableKeys (loadData today dv st)
  ∧ renderDayGrid (loadData today dv (with_dateRange r st))
    = renderDayGrid (loadData today dv st)
  ∧ selectableKeys (update today (with_range_entries rdr mn mx o) dv st).1
    = selectableKeys (update today o dv st).1
  ∧ renderDayGrid (update today (with_range_entries rdr mn mx o) dv st).1
    = renderDayGrid (update today o dv st).1
  ∧ Forall (λ c, isDataDate c = set_has (cellKey c) (selectableKeys st)) (renderDayGrid st).
Proof.
  rewrite loadData_with_dateRange, renderDayGrid_with_dateRange.
  split; [done|]. split; [done|].
  unfold update. cbn [fst].
  destruct (readSettings_with_range_entries rdr mn mx o st) as [r' ->].
  rewrite loadData_with_dateRange, renderDayGrid_with_dateRange.
  split; [done|]. split; [done|].
  apply Forall_lookup. intros i c Hc. by destruct (renderDayGrid_cell st i c Hc).
Qed.

(** The clamps are computed all the same: here they close on 5 March, and
    3 March, before them, stays enabled. *)
Lemma clamps_leave_cells_enabled :
  dayGridClamps
    (with_dateRange {| respectDataRange := true; minDate := Some (str "2024-03-05");
                       maxDate := None |}
       (opened "Sales.Date" [3; 4; 5]))
  = (Some (day_key 2024 3 5), Some (day_key 2024 3 5))
  ∧ (λ c, (cellText c, isDataDate c))
      <$> renderDayGrid
            (with_dateRange {| respectDataRange := true; minDate := Some (str "2024-03-05");
                               maxDate := None |}
               (opened "Sales.Date" [3; 4; 5])) !! 6%nat
    = Some (Some 3, true).
Proof. vm_compute. done. Qed.

(** * Further properties of the code *)

(** ** Loading *)

Lemma loadRow_rowKey i v st :
  loadRow i v st
  = match rowKey v with
    | None => st
    | Some key =>
        {| viewMode := viewMode st; cursorYear := cursorYear st; cursorMonth := cursorMonth st;
           selectedKeys := selectedKeys st; lastClickedKey := lastClickedKey st;
           settings := settings st; selectionSettings := selectionSettings st;
           dateRange := dateRange st;
           identitiesByKey := <[key := i]> (identitiesByKey st);
           selectableKeys := set_add key (selectableKeys st);
           minDataKey := match minDataKey st with
                         | None => Some key
                         | Some mn => if num_lt key mn then Some key else Some mn
                         end;
           maxDataKey := match maxDataKey st with
                         | None => Some key
                         | Some mx => if num_lt mx key then Some key else Some mx
                         end;
           filterTarget := filterTarget st |}
    end.
Proof. unfold loadRow, rowKey. by destruct (rowDate v). Qed.

(** What the loop reads of the state it starts from, and what it builds. *)
Lemma loadRows_data i vs st :
  (∀ k, k ∈ selectableKeys (loadRows i vs st) ↔
        k ∈ selectableKeys st ∨ ∃ j v, vs !! j = Some v ∧ rowKey v = Some k)
  ∧ (∀ k n, identitiesByKey (loadRows i vs st) !! k = Some n ↔
            (∃ j v, n = (i + j)%nat ∧ vs !! j = Some v ∧ rowKey v = Some k
                    ∧ ∀ j' v', (j < j')%nat → vs !! j' = Some v' → rowKey v' ≠ Some k)
            ∨ (identitiesByKey st !! k = Some n
               ∧ ∀ j v, vs !! j = Some v → rowKey v ≠ Some k)).
Proof.
  revert i st. induction vs as [|v vs IH]; intros i st.
  - cbn [loadRows]. split.
    + intros k. split; [auto|]. intros [H|(j & v & H & _)]; [done|]. by destruct j.
    + intros k n. split.
      * intros H. right. split; [done|]. intros j v Hj. by destruct j.
      * intros [(j & v & _ & Hj & _)|[H _]]; [by destruct j|done].
  - cbn [loadRows]. destruct (IH (S i) (loadRow i v st)) as [IH1 IH2]. split.
    + intros k. rewrite IH1, loadRow_rowKey. split.
      * intros [H|(j & w & Hj & Hk)].
        -- destruct (rowKey v) as [key|] eqn:E; [|auto].
           cbn [selectableKeys] in H. apply elem_of_set_add in H as [->|H]; [|auto].
           right. exists 0%nat, v. done.
        -- right. exists (S j), w. done.
      * intros [H|(j & w & Hj & Hk)].
        -- left. destruct (rowKey v); [|done]. cbn [selectableKeys].
           apply elem_of_set_add. auto.
        -- destruct j as [|j]; [|right; by exists j, w].
           cbn in Hj. injection Hj as ->. left. rewrite Hk. cbn [selectableKeys].
           apply elem_of_set_add. auto.
    + intros k n. rewrite IH2. clear IH1 IH2. split.
      * intros [(j & w & -> & Hj & Hk & Hlast)|[H Hnone]].
        -- left. exists (S j), w. split; [lia|]. split; [done|]. split; [done|].
           intros [|j'] v' Hlt Hj'; [lia|]. apply (Hlast j' v'); [lia|done].
        -- rewrite loadRow_rowKey in H. destruct (rowKey v) as [key|] eqn:E.
           ++ cbn [identitiesByKey] in H.
              destruct (decide (key = k)) as [->|Hne].
              ** rewrite lookup_insert_eq in H. injection H as <-.
                 left. exists 0%nat, v. split; [lia|]. split; [done|]. split; [done|].
                 intros [|j'] v' Hlt Hj'; [lia|]. by apply (Hnone j' v').
              ** rewrite lookup_insert_ne in H by done. right. split; [done|].
                 intros [|j] w Hj; [|by apply (Hnone j w)].
                 cbn in Hj. injection Hj as <-. rewrite E. congruence.
           ++ right. split; [done|].
              intros [|j] w Hj; [|by apply (Hnone j w)].
              cbn in Hj. injection Hj as <-. by rewrite E.
      * intros [(j & w & -> & Hj & Hk & Hlast)|[H Hnone]].
        -- destruct j as [|j].
           ++ cbn in Hj. injection Hj as ->. right. split.
              ** rewrite loadRow_rowKey, Hk. cbn [identitiesByKey].
                 rewrite lookup_insert_eq. f_equal. lia.
              ** intros j' v' Hj'. apply (Hlast (S j') v'); [lia|done].
           ++ left. exists j, w. split; [lia|]. split; [done|]. split; [done|].
              intros j' v' Hlt Hj'. apply (Hlast (S j') v'); [lia|done].
        -- right. split.
           ++ rewrite loadRow_rowKey. destruct (rowKey v) as [key|] eqn:E; [|done].
              cbn [identitiesByKey]. rewrite lookup_insert_ne; [done|].
              intros ->. by apply (Hnone 0%nat v).
           ++ intros j w Hj. by apply (Hnone (S j) w).
Qed.

(** The state [loadData] starts its loop from. *)
Lemma loadData_Some today cat st :
  ∃ st0, loadData today (Some cat) st = loadRows 0 (catValues cat) st0
         ∧ selectableKeys st0 = [] ∧ identitiesByKey st0 = ∅
         ∧ minDataKey st0 = None ∧ maxDataKey st0 = None.
Proof. eexists. split; [reflexivity|]. done. Qed.

Lemma elem_of_selectableKeys_loadData today dv st k :
  k ∈ selectableKeys (loadData today dv st)
  ↔ ∃ cat j v, dv = Some cat ∧ catValues cat !! j = Some v ∧ rowKey v = Some k.
Proof.
  destruct dv as [cat|].
  - destruct (loadData_Some today cat st) as (st0 & -> & E & _).
    rewrite (proj1 (loadRows_data 0 (catValues cat) st0) k), E. split.
    + intros [H|(j & v & H1 & H2)]; [by apply elem_of_nil in H|]. by exists cat, j, v.
    + intros (cat' & j & v & [= <-] & H1 & H2). right. by exists j, v.
  - cbn. split; [by intros H%elem_of_nil|]. by intros (? & ? & ? & ? & _).
Qed.

(** X1: a load discards the former availability: the selectable keys are
    exactly the keys of the rows of the new column that are not skipped
    (none at all when the data view has no category). *)
Theorem loadData_selectable_keys_are_row_keys today dv st k :
  k ∈ selectableKeys (loadData today dv st)
  ↔ ∃ cat j v, dv = Some cat ∧ catValues cat !! j = Some v ∧ rowKey v = Some k.
Proof. apply elem_of_selectableKeys_loadData. Qed.

(** X2: last write wins: the identity kept for a key is the index of the
    last row of the column that has this key. *)
Theorem loadData_identity_is_last_row today cat st k n :
  identitiesByKey (loadData today (Some cat) st) !! k = Some n
  ↔ ∃ v, catValues cat !! n = Some v ∧ rowKey v = Some k
         ∧ ∀ j' v', (n < j')%nat → catValues cat !! j' = Some v' → rowKey v' ≠ Some k.
Proof.
  destruct (loadData_Some today cat st) as (st0 & -> & _ & E & _).
  rewrite (proj2 (loadRows_data 0 (catValues cat) st0) k n), E. split.
  - intros [(j & v & -> & H)|[H _]]; [by exists v|by rewrite lookup_empty in H].
  - intros (v & H). left. by exists n, v.
Qed.

Lemma loadRow_identities i v st :
  (∀ k, k ∈ selectableKeys st ↔ is_Some (identitiesByKey st !! k)) →
  ∀ k, k ∈ selectableKeys (loadRow i v st) ↔ is_Some (identitiesByKey (loadRow i v st) !! k).
Proof.
  intros H k. rewrite loadRow_rowKey. destruct (rowKey v) as [key|]; [|apply H].
  cbn [selectableKeys identitiesByKey]. rewrite elem_of_set_add, lookup_insert_is_Some, H.
  split.
  - intros [->|H']; [by left|]. destruct (decide (key = k)); [by left|by right].
  - intros [->|[_ H']]; [by left|by right].
Qed.

Lemma loadRows_identities i vs st :
  (∀ k, k ∈ selectableKeys st ↔ is_Some (identitiesByKey st !! k)) →
  ∀ k, k ∈ selectableKeys (loadRows i vs st)
       ↔ is_Some (identitiesByKey (loadRows i vs st) !! k).
Proof.
  revert i st. induction vs as [|v vs IH]; intros i st H; [done|].
  cbn [loadRows]. apply IH. by apply loadRow_identities.
Qed.

(** X3: after a load, the keys with a selection identity are exactly the
    selectable keys. *)
Theorem loadData_identity_for_every_selectable_key today dv st k :
  k ∈ selectableKeys (loadData today dv st)
  ↔ is_Some (identitiesByKey (loadData today dv st) !! k).
Proof.
  destruct dv as [cat|].
  - destruct (loadData_Some today cat st) as (st0 & -> & E1 & E2 & _).
    apply loadRows_identities. intros k'. rewrite E1, E2, lookup_empty.
    split; [by intros ?%elem_of_nil|by intros [? ?]].
  - cbn. rewrite lookup_empty. split; [by intros ?%elem_of_nil|by intros [? ?]].
Qed.

(** ** The bounds of the data *)





Lemma loadRows_frame i vs st :
  viewMode (loadRows i vs st) = viewMode st
  ∧ selectionSettings (loadRows i vs st) = selectionSettings st.
Proof.
  revert i st. induction vs as [|v vs IH]; intros i st; cbn [loadRows]; [done|].
  destruct (IH (S i) (loadRow i v st)) as (-> & ->).
  unfold loadRow. by destruct (rowDate v).
Qed.

(** X5: loading the same data again changes nothing: selectable keys,
    identities, bounds, filter target and all the rest come out the same. *)
Theorem loadData_idempotent today dv st :
  loadData today dv (loadData today dv st) = loadData today dv st.
Proof.
  destruct dv as [cat|]; [|reflexivity].
  unfold loadData at 1.
  pose proof (loadRows_selection 0 (catValues cat)
    {| viewMode := viewMode st; cursorYear := cursorYear st; cursorMonth := cursorMonth st;
       selectedKeys := selectedKeys st; lastClickedKey := lastClickedKey st;
       settings := settings st; selectionSettings := selectionSettings st;
       dateRange := dateRange st; identitiesByKey := ∅; selectableKeys := [];
       minDataKey := None; maxDataKey := None;
       filterTarget := filterTargetOf (queryName cat) |}) as (H1 & H2 & H3 & H4 & H5 & H6).
  pose proof (loadRows_frame 0 (catValues cat)
    {| viewMode := viewMode st; cursorYear := cursorYear st; cursorMonth := cursorMonth st;
       selectedKeys := selectedKeys st; lastClickedKey := lastClickedKey st;
       settings := settings st; selectionSettings := selectionSettings st;
       dateRange := dateRange st; identitiesByKey := ∅; selectableKeys := [];
       minDataKey := None; maxDataKey := None;
       filterTarget := filterTargetOf (queryName cat) |}) as (H7 & H8).
  change (loadRows 0 (catValues cat) _) with (loadData today (Some cat) st) in H1, H2, H3, H4, H5, H6, H7, H8.
  rewrite H1, H2, H3, H4, H5, H6, H7, H8. reflexivity.
Qed.

(** ** Keys *)

Lemma Date_UTC_whole_day y m d k :
  Date_UTC y m d = Some k → ∃ n, k = ES.msPerDay * n ∧ day_in_range n.
Proof.
  destruct y as [y|], m as [m|], d as [d|]; try done.
  rewrite Date_UTC_Some. intros [-> H]%TimeClip_Some.
  eexists. split; [done|]. by apply day_in_range_abs.
Qed.

Lemma rowKey_whole_day v k :
  rowKey v = Some (Some k) → ∃ n, k = ES.msPerDay * n ∧ day_in_range n.
Proof.
  unfold rowKey. destruct (rowDate v) as [d|]; [|done]. cbn. intros [= H].
  by apply Date_UTC_whole_day in H.
Qed.

(** X6: every selectable key is a UTC midnight inside the range of [Date]
    (the time of day of the source value is gone), or [NaN]. *)
Theorem loadData_keys_are_utc_midnights today dv st k :
  Some k ∈ selectableKeys (loadData today dv st) →
  ES.TimeWithinDay k = 0 ∧ Z.abs k ≤ ES.maxTime ∧ newDate (Some k) = mkDate (Some k).
Proof.
  intros (cat & j & v & _ & _ & H)%elem_of_selectableKeys_loadData.
  apply rowKey_whole_day in H as (n & -> & Hn).
  split; [apply TimeWithinDay_whole|]. split; [by apply day_in_range_abs|].
  by apply newDate_whole.
Qed.

Lemma loadData_keys_are_utc_midnights_witness :
  ES.TimeWithinDay 1709424000000 = 0
  ∧ Z.abs 1709424000000 ≤ ES.maxTime
  ∧ newDate (Some 1709424000000) = mkDate (Some 1709424000000).
Proof.
  apply (loadData_keys_are_utc_midnights (2024, 2) (march "Sales.Date" [3; 4; 5])
           (initial (2024, 2)) 1709424000000).
  vm_compute. left.
Defined.

(** X7: [atUTC] gives the UTC midnight of the day of a date, whatever its
    time of day, and is idempotent (for a valid date outside the years
    0..99). *)
Theorem atUTC_is_the_midnight_of_the_day t :
  Z.abs t ≤ ES.maxTime → ¬ (0 ≤ ES.YearFromTime t ≤ 99) →
  atUTC (mkDate (Some t)) = Some (ES.msPerDay * ES.Day t)
  ∧ ES.msPerDay * ES.Day t ≤ t < ES.msPerDay * ES.Day t + ES.msPerDay
  ∧ atUTC (newDate (atUTC (mkDate (Some t)))) = atUTC (mkDate (Some t)).
Proof.
  intros Ht Hy. pose proof (Day_in_range t Ht) as Hd.
  assert (E : atUTC (mkDate (Some t)) = Some (ES.msPerDay * ES.Day t)).
  { rewrite atUTC_eq, atUTC_day_id by done. apply TimeClip_in_range.
    by apply day_in_range_abs. }
  split; [done|]. split.
  - unfold ES.Day, ES.msPerDay. zlia.
  - rewrite E, newDate_whole by done. apply atUTC_whole_day; assumption.
Qed.

Lemma atUTC_is_the_midnight_of_the_day_witness :
  atUTC (mkDate (Some 1709470800000)) = Some (ES.msPerDay * ES.Day 1709470800000)
  ∧ ES.msPerDay * ES.Day 1709470800000 ≤ 1709470800000
    < ES.msPerDay * ES.Day 1709470800000 + ES.msPerDay
  ∧ atUTC (newDate (atUTC (mkDate (Some 1709470800000))))
    = atUTC (mkDate (Some 1709470800000)).
Proof.
  apply (atUTC_is_the_midnight_of_the_day 1709470800000).
  - vm_compute. discriminate.
  - vm_compute. intros [_ H]. by apply H.
Defined.

Lemma rowKey_RawDate t :
  rowKey (RawDate t) = Some (atUTC (newDate (atUTC (mkDate t)))).
Proof.
  unfold rowKey, rowDate. cbn [fmap option_fmap option_map]. unfold atUTC. reflexivity.
Qed.

Lemma rowKey_RawOther_iso text a d :
  parseISODate (Some text) = Some d → rowKey (RawOther text a) = Some (atUTC d).
Proof. intros H. unfold rowKey, rowDate. rewrite H. reflexivity. Qed.

Lemma rowKey_RawOther_generic text t :
  parseISODate (Some text) = None →
  rowKey (RawOther text (Some t)) = Some (atUTC (newDate (atUTC (mkDate (Some t))))).
Proof.
  intros H. unfold rowKey, rowDate. rewrite H.
  cbn [getTime isNaN negb fmap option_fmap option_map]. unfold atUTC. reflexivity.
Qed.

Lemma rowKey_RawOther_skipped text :
  parseISODate (Some text) = None → rowKey (RawOther text NaN) = None.
Proof. intros H. unfold rowKey, rowDate. rewrite H. reflexivity. Qed.

Lemma atUTC_twice t :
  Z.abs t ≤ ES.maxTime → ¬ (0 ≤ ES.YearFromTime t ≤ 99) →
  atUTC (newDate (atUTC (mkDate (Some t)))) = Some (ES.msPerDay * ES.Day t).
Proof.
  intros Ht Hy. pose proof (Day_in_range t Ht) as Hd.
  rewrite atUTC_eq, atUTC_day_id by done.
  rewrite TimeClip_in_range by by apply day_in_range_abs.
  rewrite newDate_whole by done. by apply atUTC_whole_day.
Qed.

(** X8: one calendar day, one key.  A [Date] object at any time of that UTC
    day, the ISO string of the day, and any other value that [new Date]
    reads as a time of that day are all filed under the same key, the UTC
    midnight of the day (a valid calendar date of the year 0100 or later). *)
Theorem same_day_same_key s y m d t other a :
  iso_shape s y m d →
  100 ≤ digits_value y →
  valid_calendar_date (digits_value y) (digits_value m) (digits_value d) →
  Z.abs t ≤ ES.maxTime →
  ES.Day t = day_number (digits_value y) (digits_value m) (digits_value d) →
  parseISODate (Some other) = None →
  rowKey (RawOther s a) = Some (day_key (digits_value y) (digits_value m) (digits_value d))
  ∧ rowKey (RawDate (Some t))
    = Some (day_key (digits_value y) (digits_value m) (digits_value d))
  ∧ rowKey (RawOther other (Some t))
    = Some (day_key (digits_value y) (digits_value m) (digits_value d)).
Proof.
  intros Hs Hy Hv Ht Hd Ho.
  destruct (fields_of_day_number _ _ _ Hv) as (HY & _).
  assert (Hyt : ¬ (0 ≤ ES.YearFromTime t ≤ 99)).
  { unfold ES.YearFromTime. rewrite Hd, HY. lia. }
  pose proof (atUTC_twice t Ht Hyt) as Hk. rewrite Hd in Hk.
  unfold day_key. split_and!.
  - rewrite (rowKey_RawOther_iso s a _ (parseISODate_valid s y m d Hs Hy Hv)).
    f_equal. unfold day_key. rewrite <- Hd.
    apply atUTC_whole_day; [by apply Day_in_range|]. rewrite Hd, HY. lia.
  - rewrite rowKey_RawDate. f_equal. exact Hk.
  - rewrite rowKey_RawOther_generic by done. f_equal. exact Hk.
Qed.

Lemma same_day_same_key_witness :
  rowKey (RawOther (str " 2024-03-03 ") NaN)
  = Some (day_key (digits_value (str "2024")) (digits_value (str "03"))
                  (digits_value (str "03")))
  ∧ rowKey (RawDate (Some 1709470800000))
    = Some (day_key (digits_value (str "2024")) (digits_value (str "03"))
                    (digits_value (str "03")))
  ∧ rowKey (RawOther (str "3 March 2024") (Some 1709470800000))
    = Some (day_key (digits_value (str "2024")) (digits_value (str "03"))
                    (digits_value (str "03"))).
Proof.
  apply (same_day_same_key (str " 2024-03-03 ") (str "2024") (str "03") (str "03")
           1709470800000 (str "3 March 2024") NaN).
  - exists (str " "), (str " "). vm_compute. done.
  - vm_compute. discriminate.
  - vm_compute. intuition discriminate.
  - vm_compute. discriminate.
  - vm_compute. reflexivity.
  - vm_compute. reflexivity.
Defined.

(** ** The ISO parser on every string of the shape *)

(** X9: the parser accepts only strings of the shape
    4-2-2 digits, hyphen-separated, with nothing but optional white space
    around them (so no time component); and every such string that names a
    valid calendar date of the year 0100 or later is accepted and gives the
    UTC midnight of that very date, whose year, month and day are read back
    from it. *)
Theorem parseISODate_shape_and_valid_dates s :
  (∀ dt, parseISODate (Some s) = Some dt → ∃ y m d, iso_shape s y m d)
  ∧ (∀ y m d,
       iso_shape s y m d →
       100 ≤ digits_value y →
       valid_calendar_date (digits_value y) (digits_value m) (digits_value d) →
       ∃ dt, parseISODate (Some s) = Some dt
             ∧ getTime dt = day_key (digits_value y) (digits_value m) (digits_value d)
             ∧ getUTCFullYear dt = Some (digits_value y)
             ∧ getUTCMonth dt = Some (digits_value m - 1)
             ∧ getUTCDate dt = Some (digits_value d)).
Proof.
  split; [apply parseISODate_Some_shape|].
  intros y m d Hs Hy Hv. eexists. split; [by apply parseISODate_valid|].
  destruct (fields_of_day_number _ _ _ Hv) as (HY & HM & HD).
  unfold getUTCFullYear, getUTCMonth, getUTCDate, day_key. cbn [getTime fmap option_fmap option_map].
  unfold ES.YearFromTime. rewrite Day_whole, HY, HM, HD. done.
Qed.

Lemma parseISODate_shape_and_valid_dates_witness :
  ∃ dt, parseISODate (Some (str " 2023-01-15 ")) = Some dt
        ∧ getTime dt = day_key (digits_value (str "2023")) (digits_value (str "01"))
                               (digits_value (str "15"))
        ∧ getUTCFullYear dt = Some (digits_value (str "2023"))
        ∧ getUTCMonth dt = Some (digits_value (str "01") - 1)
        ∧ getUTCDate dt = Some (digits_value (str "15")).
Proof.
  apply (proj2 (parseISODate_shape_and_valid_dates (str " 2023-01-15 "))
           (str "2023") (str "01") (str "15")).
  - exists (str " "), (str " "). vm_compute. done.
  - vm_compute. discriminate.
  - vm_compute. intuition discriminate.
Defined.

Lemma iso_shape_bare s y m d :
  iso_shape s y m d → iso_shape (y ++ [45%N] ++ m ++ [45%N] ++ d) y m d.
Proof.
  intros (w1 & w2 & Es & _ & _ & H). exists [], [].
  split; [by rewrite app_nil_r|]. split; [done|]. split; [done|]. exact H.
Qed.

(** X10: what the parser makes of a string of the shape: the white space
    around the digits is ignored, and the date is the UTC midnight of the
    day [Date.UTC] finds for the three numbers, always inside the time
    range: the first of the month counted from January of the year (month 00
    is the December before, months 13 to 99 run on into the next years),
    moved by the day number less one, the years 0000 to 0099 read as 1900 to
    1999. *)
Theorem parseISODate_reads_the_digits_as_Date_UTC s y m d :
  iso_shape s y m d →
  parseISODate (Some s) = parseISODate (Some (y ++ [45%N] ++ m ++ [45%N] ++ d))
  ∧ ∃ n, parseISODate (Some s) = Some (mkDate (Some (ES.msPerDay * n)))
         ∧ day_in_range n
         ∧ n = ES.MakeDay (ES.MakeFullYear (digits_value y)) (digits_value m - 1) 1
               + (digits_value d - 1)
         ∧ ES.MakeFullYear (digits_value y)
           = (if digits_value y <? 100 then 1900 + digits_value y else digits_value y).
Proof.
  intros Hs. pose proof (iso_shape_bare s y m d Hs) as Hb.
  rewrite (parseISODate_of_shape s y m d Hs), (parseISODate_of_shape _ y m d Hb).
  split; [done|].
  pose proof Hs as (w1 & w2 & Es & _ & _ & Ly & Lm & Ld & Dy & Dm & Dd).
  pose proof (digits_value_bounds y Dy) as By. rewrite Ly in By.
  pose proof (digits_value_bounds m Dm) as Bm. rewrite Lm in Bm.
  pose proof (digits_value_bounds d Dd) as Bd. rewrite Ld in Bd.
  change (10 ^ Z.of_nat 4) with 10000 in By.
  change (10 ^ Z.of_nat 2) with 100 in Bm, Bd.
  eexists. split_and!; [reflexivity| | |].
  - apply MakeDay_bounds; lia.
  - unfold ES.MakeDay. lia.
  - unfold ES.MakeFullYear. split_tests; lia.
Qed.

Lemma parseISODate_reads_the_digits_as_Date_UTC_witness :
  parseISODate (Some (str " 0099-00-31 "))
  = parseISODate (Some (str "0099" ++ [45%N] ++ str "00" ++ [45%N] ++ str "31"))
  ∧ ∃ n, parseISODate (Some (str " 0099-00-31 ")) = Some (mkDate (Some (ES.msPerDay * n)))
         ∧ day_in_range n
         ∧ n = ES.MakeDay (ES.MakeFullYear (digits_value (str "0099")))
                 (digits_value (str "00") - 1) 1
               + (digits_value (str "31") - 1)
         ∧ ES.MakeFullYear (digits_value (str "0099"))
           = (if digits_value (str "0099") <? 100 then 1900 + digits_value (str "0099")
              else digits_value (str "0099")).
Proof.
  apply (parseISODate_reads_the_digits_as_Date_UTC (str " 0099-00-31 ")
           (str "0099") (str "00") (str "31")).
  exists (str " "), (str " "). vm_compute. done.
Defined.

(** ** The filter target *)

Lemma lastIndexOf_from_ge c s i acc :
  acc < i → acc ≤ lastIndexOf_from c s i acc < i + Z.of_nat (length s).
Proof.
  revert i acc. induction s as [|x s IH]; intros i acc H; cbn [lastIndexOf_from length].
  - lia.
  - destruct (x =? c)%N.
    + specialize (IH (i + 1) i ltac:(lia)). lia.
    + specialize (IH (i + 1) acc ltac:(lia)). lia.
Qed.

(** Where [lastIndexOf] points: at a [c] with no [c] after it. *)
Lemma lastIndexOf_from_spec c s i acc :
  acc < i →
  (lastIndexOf_from c s i acc = acc ∧ c ∉ s)
  ∨ ∃ a b, s = a ++ [c] ++ b ∧ (c ∉ b)
           ∧ lastIndexOf_from c s i acc = i + Z.of_nat (length a).
Proof.
  revert i acc. induction s as [|x s IH]; intros i acc H; cbn [lastIndexOf_from].
  - left. split; [done|]. apply not_elem_of_nil.
  - destruct (N.eqb_spec x c) as [->|Hne].
    + destruct (IH (i + 1) i ltac:(lia)) as [[E Hc]|(a & b & -> & Hb & E)].
      * right. exists [], s. rewrite E. cbn. split_and!; [done|done|lia].
      * right. exists (c :: a), b. rewrite E. cbn [length]. split_and!; [done|done|lia].
    + destruct (IH (i + 1) acc ltac:(lia)) as [[E Hc]|(a & b & -> & Hb & E)].
      * left. split; [done|]. apply not_elem_of_cons. done.
      * right. exists (x :: a), b. rewrite E. cbn [length]. split_and!; [done|done|lia].
Qed.

(** X11: the filter target is the query name cut at its last dot: the table
    is what stands before (it must not be empty), the column what stands
    after, which has no dot.  A query name with no dot, or whose only dot
    comes first, gives no target. *)
Theorem filterTargetOf_cuts_at_last_dot qn ft :
  filterTargetOf (Some qn) = Some ft
  ↔ qn = table ft ++ [46%N] ++ column ft ∧ table ft ≠ [] ∧ 46%N ∉ column ft.
Proof.
  unfold filterTargetOf, lastIndexOf.
  destruct (lastIndexOf_from_spec 46 qn 0 (-1) ltac:(lia)) as [[E Hc]|(a & b & -> & Hb & E)];
    rewrite E.
  - cbn. split; [done|]. intros (-> & _ & _). exfalso. apply Hc.
    apply elem_of_app. right. by left.
  - rewrite Z.add_0_l. destruct (Z.ltb_spec 0 (Z.of_nat (length a))) as [Hlt|Hge].
    + rewrite Nat2Z.id. replace (Z.to_nat (Z.of_nat (length a) + 1)) with (S (length a)) by lia.
      rewrite take_app_length.
      replace (a ++ [46%N] ++ b) with ((a ++ [46%N]) ++ b) by by rewrite <- app_assoc.
      replace (S (length a)) with (length (a ++ [46%N])) by (rewrite length_app; cbn; lia).
      rewrite drop_app_length. split.
      * intros [= <-]. cbn [table column]. rewrite <- app_assoc.
        split_and!; [done| |done]. intros ->. cbn in Hlt. lia.
      * intros (Hq & Hne & Hcol). destruct ft as [tbl col]. cbn [table column] in *.
        f_equal. rewrite <- app_assoc in Hq.
        assert (Hlen : length a = length tbl).
        { destruct (Nat.lt_trichotomy (length a) (length tbl)) as [Hl|[Hl|Hl]]; [|done|].
          - exfalso. apply Hb.
            assert (Hi : (a ++ [46%N] ++ b) !! (length tbl) = Some 46%N).
            { rewrite Hq. by rewrite lookup_app_r, Nat.sub_diag by lia. }
            rewrite lookup_app_r in Hi by lia.
            destruct (length tbl - length a)%nat as [|n] eqn:En; [lia|].
            cbn in Hi. by apply list_elem_of_lookup_2 in Hi.
          - exfalso. apply Hcol.
            assert (Hi : (tbl ++ [46%N] ++ col) !! (length a) = Some 46%N).
            { rewrite <- Hq. by rewrite lookup_app_r, Nat.sub_diag by lia. }
            rewrite lookup_app_r in Hi by lia.
            destruct (length a - length tbl)%nat as [|n] eqn:En; [lia|].
            cbn in Hi. by apply list_elem_of_lookup_2 in Hi. }
        apply app_inj_1 in Hq as [-> Hq]; [|done]. by injection Hq as ->.
    + split; [done|]. intros (Hq & Hne & Hcol). exfalso.
      destruct a as [|x a]; [|cbn in Hge; lia].
      destruct ft as [tbl col]. cbn [table column] in *.
      destruct tbl as [|t tbl]; [done|]. cbn in Hq. injection Hq as <- Hq.
      apply Hb. rewrite Hq. apply elem_of_app. right. by left.
Qed.

(** ** Clicks, branch by branch *)

(** The selection a click leaves, whatever the branch. *)
Lemma handleClickDate_selection key ev st :
  selectedKeys (handleClickDate key ev st).1
  = if rangeKey ev st then
      match filterTarget st with
      | Some _ => set_add_all (rangeKeys key st) (selectedKeys st)
      | None => selectedKeys st
      end
    else if multiKey ev st then toggle key (selectedKeys st)
    else [key].
Proof.
  unfold handleClickDate. fold (rangeKey ev st). fold (multiKey ev st).
  destruct (rangeKey ev st).
  - fold (rangeKeys key st). unfold applyFilterForKeys.
    by destruct (filterTarget st).
  - destruct (multiKey ev st).
    + fold (toggle key (selectedKeys st)). unfold applyFilterForKeys.
      cbn [filterTarget with_selection selectedKeys].
      destruct (filterTarget st); [|done].
      cbn. by rewrite set_add_all_present.
    + unfold applyFilterForKeys. cbn [filterTarget with_selection].
      by destruct (filterTarget st).
Qed.

(** What a click sends: nothing without a filter target, and with one a
    single request. *)
Lemma handleClickDate_calls_eq key ev st :
  (handleClickDate key ev st).2
  = match filterTarget st with
    | None => []
    | Some tgt =>
        [applyJsonFilter
           (Some {| target := tgt; operator := "In";
                    values := newDate <$> selectedKeys (handleClickDate key ev st).1 |})
           merge]
    end.
Proof.
  unfold handleClickDate.
  destruct (_ && _ && _).
  - destruct (filterTarget st) as [tgt|] eqn:E.
    + by rewrite (applyFilterForKeys_target _ _ _ _ E).
    + by rewrite (applyFilterForKeys_no_target _ _ _ E).
  - destruct (_ && _).
    + destruct (filterTarget st) as [tgt|] eqn:E.
      * by rewrite (applyFilterForKeys_target _ _ _ tgt).
      * by rewrite applyFilterForKeys_no_target.
    + destruct (filterTarget st) as [tgt|] eqn:E.
      * by rewrite (applyFilterForKeys_target _ _ _ tgt).
      * by rewrite applyFilterForKeys_no_target.
Qed.

Lemma elem_of_toggle x key s :
  x ∈ toggle key s ↔ (x ≠ key ∧ x ∈ s) ∨ (x = key ∧ key ∉ s).
Proof.
  unfold toggle. destruct (set_has key s) eqn:E.
  - apply set_has_true in E. rewrite elem_of_set_delete. intuition congruence.
  - apply set_has_false in E. rewrite elem_of_set_add.
    destruct (decide (x = key)); intuition congruence.
Qed.

(** X12: a Ctrl- or Cmd-click (multi-select on, range branch not taken)
    toggles the clicked key and nothing else, with or without a filter
    target: a selected key is taken out, the order of the others kept; an
    unselected key is put last.  The clicked key becomes the anchor. *)
Theorem multi_click_toggles_one_key key ev st :
  rangeKey ev st = false → multiKey ev st = true →
  selectedKeys (handleClickDate key ev st).1
  = (if set_has key (selectedKeys st) then filter (λ x, x ≠ key) (selectedKeys st)
     else selectedKeys st ++ [key])
  ∧ (∀ x, x ≠ key → x ∈ selectedKeys (handleClickDate key ev st).1 ↔ x ∈ selectedKeys st)
  ∧ (key ∈ selectedKeys (handleClickDate key ev st).1 ↔ key ∉ selectedKeys st)
  ∧ lastClickedKey (handleClickDate key ev st).1 = Some key.
Proof.
  intros Hr Hm. rewrite handleClickDate_selection, Hr, Hm. split_and!.
  - unfold toggle, set_delete, set_add. by destruct (set_has key (selectedKeys st)).
  - intros x Hx. rewrite elem_of_toggle. intuition congruence.
  - rewrite elem_of_toggle. intuition congruence.
  - apply handleClickDate_frame.
Qed.

Lemma multi_click_toggles_one_key_witness :
  selectedKeys (handleClickDate (day_key 2024 3 7) ev_ctrl (march_5_clicked "Sales.Date")).1
  = (if set_has (day_key 2024 3 7) (selectedKeys (march_5_clicked "Sales.Date"))
     then filter (λ x, x ≠ day_key 2024 3 7) (selectedKeys (march_5_clicked "Sales.Date"))
     else selectedKeys (march_5_clicked "Sales.Date") ++ [day_key 2024 3 7])
  ∧ (∀ x, x ≠ day_key 2024 3 7 →
          x ∈ selectedKeys (handleClickDate (day_key 2024 3 7) ev_ctrl
                              (march_5_clicked "Sales.Date")).1
          ↔ x ∈ selectedKeys (march_5_clicked "Sales.Date"))
  ∧ (day_key 2024 3 7
       ∈ selectedKeys (handleClickDate (day_key 2024 3 7) ev_ctrl
                         (march_5_clicked "Sales.Date")).1
     ↔ day_key 2024 3 7 ∉ selectedKeys (march_5_clicked "Sales.Date"))
  ∧ lastClickedKey (handleClickDate (day_key 2024 3 7) ev_ctrl
                      (march_5_clicked "Sales.Date")).1
    = Some (day_key 2024 3 7).
Proof.
  apply (multi_click_toggles_one_key (day_key 2024 3 7) ev_ctrl (march_5_clicked "Sales.Date")).
  - vm_compute. reflexivity.
  - vm_compute. reflexivity.
Defined.

(** X13: a plain click (neither the range nor the multi branch) replaces
    the selection by the clicked key alone and makes it the anchor, with or
    without a filter target. *)
Theorem single_click_replaces_selection key ev st :
  rangeKey ev st = false → multiKey ev st = false →
  selectedKeys (handleClickDate key ev st).1 = [key]
  ∧ lastClickedKey (handleClickDate key ev st).1 = Some key.
Proof.
  intros Hr Hm. rewrite handleClickDate_selection, Hr, Hm.
  split; [done|apply handleClickDate_frame].
Qed.

Lemma single_click_replaces_selection_witness :
  selectedKeys (handleClickDate (day_key 2024 3 7) ev_plain (march_5_clicked "Sales.Date")).1
  = [day_key 2024 3 7]
  ∧ lastClickedKey (handleClickDate (day_key 2024 3 7) ev_plain
                      (march_5_clicked "Sales.Date")).1
    = Some (day_key 2024 3 7).
Proof.
  apply (single_click_replaces_selection (day_key 2024 3 7) ev_plain
           (march_5_clicked "Sales.Date")).
  - vm_compute. reflexivity.
  - vm_compute. reflexivity.
Defined.

(** X14: the filter follows the selection.  With a filter target, every
    click sends exactly one request, a merge of an "In" filter on that target
    whose values are the dates of the whole selection as the click leaves it,
    in selection order; without a target a click sends nothing. *)
Theorem click_filter_lists_the_selection key ev st :
  (handleClickDate key ev st).2
  = match filterTarget st with
    | None => []
    | Some tgt =>
        [applyJsonFilter
           (Some {| target := tgt; operator := "In";
                    values := newDate <$> selectedKeys (handleClickDate key ev st).1 |})
           merge]
    end.
Proof. apply handleClickDate_calls_eq. Qed.

(** X15: deselecting the only selected key with a Ctrl-click does not
    remove the host filter: the selection is empty and the request is a merge
    of an "In" filter with no value. *)
Theorem deselecting_last_key_sends_empty_in_filter key ev st tgt :
  rangeKey ev st = false → multiKey ev st = true →
  selectedKeys st = [key] → filterTarget st = Some tgt →
  selectedKeys (handleClickDate key ev st).1 = []
  ∧ (handleClickDate key ev st).2
    = [applyJsonFilter (Some {| target := tgt; operator := "In"; values := [] |}) merge].
Proof.
  intros Hr Hm Hs Ht.
  assert (E : selectedKeys (handleClickDate key ev st).1 = []).
  { rewrite handleClickDate_selection, Hr, Hm, Hs. unfold toggle, set_has, set_delete.
    rewrite bool_decide_eq_true_2 by by left.
    cbn. by rewrite decide_False by (intros H; by apply H). }
  split; [done|]. by rewrite handleClickDate_calls_eq, Ht, E.
Qed.

Lemma deselecting_last_key_sends_empty_in_filter_witness :
  selectedKeys (handleClickDate (day_key 2024 3 5) ev_ctrl (march_5_clicked "Sales.Date")).1
  = []
  ∧ (handleClickDate (day_key 2024 3 5) ev_ctrl (march_5_clicked "Sales.Date")).2
    = [applyJsonFilter
         (Some {| target := {| table := str "Sales"; column := str "Date" |};
                  operator := "In"; values := [] |}) merge].
Proof.
  apply (deselecting_last_key_sends_empty_in_filter (day_key 2024 3 5) ev_ctrl
           (march_5_clicked "Sales.Date")
           {| table := str "Sales"; column := str "Date" |}).
  - vm_compute. reflexivity.
  - vm_compute. reflexivity.
  - vm_compute. reflexivity.
  - vm_compute. reflexivity.
Defined.

(** X16: a range click only ever adds, and adds only selectable keys: every
    key selected before stays selected, every new one is selectable, and the
    clicked key becomes the anchor. *)
Theorem range_click_only_adds_selectable_keys key ev st :
  rangeKey ev st = true →
  selectedKeys st ⊆ selectedKeys (handleClickDate key ev st).1
  ∧ (∀ x, x ∈ selectedKeys (handleClickDate key ev st).1 →
          x ∈ selectedKeys st ∨ x ∈ selectableKeys st)
  ∧ lastClickedKey (handleClickDate key ev st).1 = Some key.
Proof.
  intros Hr. rewrite handleClickDate_selection, Hr. split_and!.
  - intros x Hx. destruct (filterTarget st); [|done]. apply elem_of_set_add_all. auto.
  - intros x Hx. destruct (filterTarget st); [|auto].
    apply elem_of_set_add_all in Hx as [Hx|Hx]; [|auto].
    unfold rangeKeys in Hx. apply elem_of_rangeWalk in Hx as [Hx|Hx]; [|auto].
    by apply elem_of_nil in Hx.
  - apply handleClickDate_frame.
Qed.

Lemma range_click_only_adds_selectable_keys_witness :
  selectedKeys (march_5_clicked "Sales.Date")
  ⊆ selectedKeys (handleClickDate (day_key 2024 3 10) ev_shift
                    (march_5_clicked "Sales.Date")).1
  ∧ (∀ x, x ∈ selectedKeys (handleClickDate (day_key 2024 3 10) ev_shift
                              (march_5_clicked "Sales.Date")).1 →
          x ∈ selectedKeys (march_5_clicked "Sales.Date")
          ∨ x ∈ selectableKeys (march_5_clicked "Sales.Date"))
  ∧ lastClickedKey (handleClickDate (day_key 2024 3 10) ev_shift
                      (march_5_clicked "Sales.Date")).1
    = Some (day_key 2024 3 10).
Proof.
  apply (range_click_only_adds_selectable_keys (day_key 2024 3 10) ev_shift
           (march_5_clicked "Sales.Date")).
  vm_compute. reflexivity.
Defined.

(** X17: the host never receives anything but the merge of an "In" filter
    or the removal of the filter, whatever the sequence of updates, clicks,
    clears and navigation, and from whatever state. *)
Theorem host_receives_only_merge_or_removal ops st call :
  call ∈ (run ops st).2 →
  (call_action call = merge ∧ ∃ f, call_filter call = Some f ∧ operator f = "In"%string)
  ∨ (call_action call = remove ∧ call_filter call = None).
Proof.
  intros H. pose proof (run_calls ops st) as Hall.
  rewrite Forall_forall in Hall. specialize (Hall call H).
  destruct call as [[f|] [|]]; cbn in *; try done; [left|right]; eauto.
Qed.

Lemma host_receives_only_merge_or_removal_witness :
  (call_action (applyJsonFilter None remove) = merge
   ∧ ∃ f, call_filter (applyJsonFilter None remove) = Some f ∧ operator f = "In"%string)
  ∨ (call_action (applyJsonFilter None remove) = remove
     ∧ call_filter (applyJsonFilter None remove) = None).
Proof.
  apply (host_receives_only_merge_or_removal [OpClickDay 8 ev_plain; OpClear]
           (opened "Sales.Date" (seqZ 1 31)) (applyJsonFilter None remove)).
  vm_compute. right. left.
Defined.

(** ** Navigation *)

Lemma carry_up_spec fuel m y :
  - 12 * Z.of_nat fuel ≤ m →
  carry_up fuel m y = if m <? 0 then (m mod 12, y + m / 12) else (m, y).
Proof.
  revert m y. induction fuel as [|fuel IH]; intros m y Hf; cbn [carry_up].
  - destruct (Z.ltb_spec m 0); [lia|done].
  - destruct (Z.ltb_spec m 0) as [Hm|Hm]; [|done].
    rewrite IH by lia.
    destruct (Z.ltb_spec (m + 12) 0).
    + f_equal; zlia.
    + f_equal; zlia.
Qed.

Lemma carry_down_spec fuel m y :
  m ≤ 12 * Z.of_nat fuel →
  carry_down fuel m y = if 11 <? m then (m mod 12, y + m / 12) else (m, y).
Proof.
  revert m y. induction fuel as [|fuel IH]; intros m y Hf; cbn [carry_down].
  - destruct (Z.ltb_spec 11 m); [lia|done].
  - destruct (Z.ltb_spec 11 m) as [Hm|Hm]; [|done].
    rewrite IH by lia.
    destruct (Z.ltb_spec 11 (m - 12)).
    + f_equal; zlia.
    + f_equal; zlia.
Qed.

(** X18: the two loops of [shiftMonth] end, and leave what division finds:
    the month is back in 0..11 and the count of months, 12 * year + month,
    has moved by [delta] exactly, whatever the month and the step were. *)
Theorem shiftMonth_loops_normalise delta st :
  shiftMonth_loops delta st = shiftMonth delta st
  ∧ 0 ≤ cursorMonth (shiftMonth_loops delta st) ≤ 11
  ∧ 12 * cursorYear (shiftMonth_loops delta st) + cursorMonth (shiftMonth_loops delta st)
    = 12 * cursorYear st + cursorMonth st + delta.
Proof.
  assert (E : shiftMonth_loops delta st = shiftMonth delta st).
  { unfold shiftMonth_loops, shiftMonth. cbv zeta.
    set (m := cursorMonth st + delta). set (y := cursorYear st).
    rewrite carry_up_spec by (rewrite Z2Nat.id by zlia; zlia).
    destruct (Z.ltb_spec m 0) as [Hm|Hm].
    - rewrite carry_down_spec by (rewrite Z2Nat.id by zlia; zlia).
      destruct (Z.ltb_spec 11 (m mod 12)); [zlia|]. done.
    - rewrite carry_down_spec by (rewrite Z2Nat.id by zlia; zlia).
      destruct (Z.ltb_spec 11 m); [done|].
      f_equal; zlia. }
  rewrite E. unfold shiftMonth. cbn [cursorMonth cursorYear with_view].
  split; [done|]. zlia.
Qed.

(** X19: the year view shows the twelve years of the block of twelve (a
    multiple of 12 and the eleven after) that holds the cursor year, and a
    click on the i-th puts the cursor on that year, in month view, the month
    and the selection untouched. *)
Theorem year_grid_page_holds_cursor_year st :
  cursorYear st ∈ renderYearGrid st
  ∧ length (renderYearGrid st) = 12%nat
  ∧ (∀ i y, renderYearGrid st !! i = Some y →
            cursorYear (clickYearCell (Z.of_nat i) st) = y
            ∧ viewMode (clickYearCell (Z.of_nat i) st) = view_month
            ∧ cursorMonth (clickYearCell (Z.of_nat i) st) = cursorMonth st
            ∧ selectedKeys (clickYearCell (Z.of_nat i) st) = selectedKeys st
            ∧ renderYearGrid (clickYearCell (Z.of_nat i) st) = renderYearGrid st).
Proof.
  unfold renderYearGrid. split_and!.
  - apply list_elem_of_fmap. exists (cursorYear st mod 12). split; [zlia|].
    apply elem_of_seqZ. zlia.
  - by rewrite length_fmap, length_seqZ.
  - intros i y. rewrite list_lookup_fmap.
    destruct (seqZ 0 12 !! i) as [z|] eqn:E; [|done].
    apply lookup_seqZ in E as [-> Hi]. cbn. intros [= <-].
    split_and!; try done.
    do 2 f_equal. zlia.
Qed.

(** ** Week numbers *)

Lemma YearFromDay_lt d y : d < ES.DayFromYear y → ES.YearFromDay d < y.
Proof.
  intros Hd. pose proof (YearFromDay_spec d) as [Hlo _].
  destruct (Z.lt_ge_cases (ES.YearFromDay d) y) as [|Hge]; [done|].
  pose proof (DayFromYear_le y _ Hge). lia.
Qed.

(** The years on which [getISOWeek] is the ISO week, by day number. *)
Lemma getISOWeek_of_day d :
  -271819 ≤ ES.YearFromDay d ≤ -2 ∨ 101 ≤ ES.YearFromDay d ≤ 275759 →
  getISOWeek (mkDate (Some (ES.msPerDay * d))) = Some (iso_week d).
Proof.
  intros Hy.
  pose proof (YearFromDay_spec d) as [Hlo Hhi].
  destruct (thursday_of_week_spec d) as [_ Hth].
  pose proof (YearFromDay_spec (thursday_of_week d)) as [Hj Hj'].
  assert (Emin : ES.DayFromYear (-271820) = -99999744) by reflexivity.
  assert (Em1 : ES.DayFromYear (-1) = -719893) by reflexivity.
  assert (E0 : ES.DayFromYear 0 = -719528) by reflexivity.
  assert (E101 : ES.DayFromYear 101 = -682638) by reflexivity.
  assert (E100 : ES.DayFromYear 100 = -683003) by reflexivity.
  assert (Emax : ES.DayFromYear 275760 = 99999744) by reflexivity.
  destruct Hy as [[Hy1 Hy2]|[Hy1 Hy2]].
  - pose proof (DayFromYear_le (-271819) (ES.YearFromDay d) ltac:(lia)) as H1.
    pose proof (DayFromYear_le (ES.YearFromDay d + 1) (-1) ltac:(lia)) as H2.
    assert (E : ES.DayFromYear (-271819) = -99999378) by reflexivity.
    assert (Yth : -271820 ≤ ES.YearFromDay (thursday_of_week d)).
    { apply YearFromDay_largest. lia. }
    assert (Yth' : ES.YearFromDay (thursday_of_week d) < 0).
    { apply YearFromDay_lt. lia. }
    pose proof (DayFromYear_le (-271820) _ Yth) as Hj2.
    apply getISOWeek_steps; unfold day_in_range in *; lia.
  - pose proof (DayFromYear_le 101 (ES.YearFromDay d) ltac:(lia)) as H101.
    pose proof (DayFromYear_le (ES.YearFromDay d + 1) 275760 ltac:(lia)) as Hmax.
    assert (Yth : 100 ≤ ES.YearFromDay (thursday_of_week d)).
    { apply YearFromDay_largest. lia. }
    pose proof (DayFromYear_le 100 _ Yth) as Hj2.
    apply getISOWeek_steps; unfold day_in_range in *; lia.
Qed.

Lemma iso_week_bounds d : 1 ≤ iso_week d ≤ 53.
Proof.
  unfold iso_week, iso_week_year.
  destruct (thursday_of_week_spec d) as [Hthu _].
  pose proof (YearFromDay_spec (thursday_of_week d)) as [Hlo Hhi].
  rewrite DayFromYear_succ in Hhi.
  pose proof (DaysInYear_cases (ES.YearFromDay (thursday_of_week d))) as Hdays.
  revert Hthu Hlo Hhi Hdays. unfold first_thursday, weekday_of_day. cbv zeta.
  generalize (ES.DaysInYear (ES.YearFromDay (thursday_of_week d))).
  generalize (ES.DayFromYear (ES.YearFromDay (thursday_of_week d))).
  generalize (thursday_of_week d). intros th j1 n. zlia.
Qed.

Lemma iso_week_monday d :
  weekday_of_day d = 1 → ∀ i, 0 ≤ i ≤ 6 → iso_week (d + i) = iso_week d.
Proof.
  intros Hd i Hi. unfold iso_week, iso_week_year.
  assert (E : thursday_of_week (d + i) = thursday_of_week d).
  { revert Hd. unfold thursday_of_week, weekday_of_day. zlia. }
  by rewrite E.
Qed.

(** X20: on the years -271819 to -2 and 101 to 275759 the week number is
    a whole number from 1 to 53, the seven days from a Monday to the Sunday
    after it get the same one, and the number depends on the day only, not on
    the time of day. *)
Theorem getISOWeek_between_1_and_53 t :
  Z.abs t ≤ ES.maxTime →
  -271819 ≤ ES.YearFromTime t ≤ -2 ∨ 101 ≤ ES.YearFromTime t ≤ 275759 →
  (∃ w, getISOWeek (mkDate (Some t)) = Some w ∧ 1 ≤ w ≤ 53)
  ∧ getISOWeek (mkDate (Some t)) = getISOWeek (mkDate (Some (ES.msPerDay * ES.Day t)))
  ∧ (ES.WeekDay t = 1 → ∀ i, 0 ≤ i ≤ 6 →
     -271819 ≤ ES.YearFromDay (ES.Day t + i) ≤ -2 ∨ 101 ≤ ES.YearFromDay (ES.Day t + i) ≤ 275759 →
     getISOWeek (mkDate (Some (ES.msPerDay * (ES.Day t + i)))) = getISOWeek (mkDate (Some t))).
Proof.
  intros Ht Hy.
  assert (E : getISOWeek (mkDate (Some t)) = Some (iso_week (ES.Day t))).
  { rewrite getISOWeek_whole_day by lia. by apply getISOWeek_of_day. }
  split_and!.
  - exists (iso_week (ES.Day t)). split; [done|apply iso_week_bounds].
  - by apply getISOWeek_whole_day; lia.
  - intros Hw i Hi Hyi. rewrite E, getISOWeek_of_day by done.
    f_equal. by apply iso_week_monday.
Qed.

Lemma getISOWeek_between_1_and_53_witness :
  (∃ w, getISOWeek (mkDate (Some 1709470800000)) = Some w ∧ 1 ≤ w ≤ 53)
  ∧ getISOWeek (mkDate (Some 1709470800000))
    = getISOWeek (mkDate (Some (ES.msPerDay * ES.Day 1709470800000)))
  ∧ (ES.WeekDay 1709470800000 = 1 → ∀ i, 0 ≤ i ≤ 6 →
     -271819 ≤ ES.YearFromDay (ES.Day 1709470800000 + i) ≤ -2
     ∨ 101 ≤ ES.YearFromDay (ES.Day 1709470800000 + i) ≤ 275759 →
     getISOWeek (mkDate (Some (ES.msPerDay * (ES.Day 1709470800000 + i))))
     = getISOWeek (mkDate (Some 1709470800000))).
Proof.
  apply (getISOWeek_between_1_and_53 1709470800000).
  - vm_compute. discriminate.
  - right. vm_compute. split; discriminate.
Defined.

(** ** The day grid, cell by cell *)

(** The day [c] days after the day of [d0], through [Date.UTC] on the
    fields. *)
Lemma Date_UTC_day_shift d0 c :
  day_in_range (d0 + c) → ¬ (0 ≤ ES.YearFromDay d0 ≤ 99) →
  newDate (Date_UTC (getUTCFullYear (mkDate (Some (ES.msPerDay * d0))))
                    (getUTCMonth (mkDate (Some (ES.msPerDay * d0))))
                    (num_add (getUTCDate (mkDate (Some (ES.msPerDay * d0)))) (Some c)))
  = mkDate (Some (ES.msPerDay * (d0 + c))).
Proof.
  intros Hr Hy.
  change (getUTCFullYear (mkDate (Some (ES.msPerDay * d0))))
    with (Some (ES.YearFromTime (ES.msPerDay * d0))).
  change (getUTCMonth (mkDate (Some (ES.msPerDay * d0))))
    with (Some (ES.MonthFromTime (ES.msPerDay * d0))).
  change (num_add (getUTCDate (mkDate (Some (ES.msPerDay * d0)))) (Some c))
    with (Some (ES.DateFromTime (ES.msPerDay * d0) + c)).
  rewrite Date_UTC_fields by (unfold ES.YearFromTime; by rewrite Day_whole).
  rewrite Day_whole, TimeClip_in_range by by apply day_in_range_abs.
  by apply newDate_whole.
Qed.

Lemma getStartOfWeekOffset_weekday st w :
  0 ≤ w ≤ 6 →
  ∃ off, getStartOfWeekOffset st (Some w) = Some off ∧ 0 ≤ off ≤ 6
         ∧ (w - off) mod 7 = week_start_day st.
Proof.
  intros Hw. unfold getStartOfWeekOffset, week_start_day.
  destruct (startOfWeek (settings st)).
  - exists w. split; [done|split; [lia|]]. by rewrite Z.sub_diag.
  - destruct (bool_decide_reflect (Some w = Some 0)) as [[= ->]|Hne].
    + exists 6. split; [done|split; [lia|done]].
    + assert (w ≠ 0) by congruence.
      exists (w - 1). split; [done|split; [lia|]].
      replace (w - (w - 1)) with 1 by lia. done.
Qed.

(** The days a grid can reach from a cursor year. *)
Lemma grid_days_years y m c :
  grid_year_ok y → 0 ≤ m ≤ 11 → -6 ≤ c ≤ 41 →
  let d := ES.MakeDay y m 1 + c in
  day_in_range d
  ∧ (-271819 ≤ ES.YearFromDay d ≤ -2 ∨ 101 ≤ ES.YearFromDay d ≤ 275759).
Proof.
  intros Hy Hm Hc d. subst d. rewrite MakeDay_month_in_range by done.
  pose proof (MonthStart_bounds y m) as Hs.
  pose proof (DayFromYear_succ (y - 1)) as H1. replace (y - 1 + 1) with y in H1 by lia.
  pose proof (DayFromYear_succ y) as H2.
  pose proof (DayFromYear_succ (y + 1)) as H3. replace (y + 1 + 1) with (y + 2) in H3 by lia.
  pose proof (DaysInYear_cases (y - 1)). pose proof (DaysInYear_cases y).
  pose proof (DaysInYear_cases (y + 1)).
  set (d := ES.DayFromYear y + ES.MonthStart y m + 1 - 1 + c).
  assert (Ylo : y - 1 ≤ ES.YearFromDay d) by (apply YearFromDay_largest; lia).
  assert (Yhi : ES.YearFromDay d < y + 2) by (apply YearFromDay_lt; lia).
  assert (Emin : ES.DayFromYear (-271819) = -99999378) by reflexivity.
  assert (Emax : ES.DayFromYear 275760 = 99999744) by reflexivity.
  pose proof (DayFromYear_le (-271819) (y - 1)).
  pose proof (DayFromYear_le (y + 2) 275760).
  unfold grid_year_ok, day_in_range in *. split; lia.
Qed.

Lemma DayCell_eq k k' t t' im im' (w w' : number) (b : bool) sel1 sel2 :
  k = k' → t = t' → im = im' → w = w' →
  {| cellKey := k; cellText := t; inMonth := im;
     weekNum := if b then Some w else None;
     isDataDate := set_has k sel1; isSelected := set_has k sel2 |}
  = {| cellKey := k'; cellText := t'; inMonth := im';
       weekNum := if b then Some w' else None;
       isDataDate := set_has k' sel1; isSelected := set_has k' sel2 |}.
Proof. by intros -> -> -> ->. Qed.

Lemma renderDayGrid_cells st :
  0 ≤ cursorMonth st ≤ 11 → grid_year_ok (cursorYear st) →
  ∃ off, 0 ≤ off ≤ 6
    ∧ weekday_of_day (ES.MakeDay (cursorYear st) (cursorMonth st) 1 - off) = week_start_day st
    ∧ renderDayGrid st
      = (λ i : Z,
           let d := ES.MakeDay (cursorYear st) (cursorMonth st) 1 - off + i in
           let k := Some (ES.msPerDay * d) in
           {| cellKey := k;
              cellText := Some (ES.DateFromTime (ES.msPerDay * d));
              inMonth := bool_decide (ES.MonthFromTime (ES.msPerDay * d) = cursorMonth st);
              weekNum := if showWeekNumbers (settings st) && (i mod 7 =? 0)
                         then Some (Some (iso_week d)) else None;
              isDataDate := set_has k (selectableKeys st);
              isSelected := set_has k (selectedKeys st) |}) <$> seqZ 0 42.
Proof.
  intros Hm Hy. set (y := cursorYear st) in *. set (m := cursorMonth st) in *.
  set (F := ES.MakeDay y m 1).
  assert (HF : ∀ c, -6 ≤ c ≤ 41 → day_in_range (F + c)
             ∧ (-271819 ≤ ES.YearFromDay (F + c) ≤ -2 ∨ 101 ≤ ES.YearFromDay (F + c) ≤ 275759)).
  { intros c Hc. by apply grid_days_years. }
  assert (Hny : ¬ (0 ≤ y ≤ 99)) by (unfold grid_year_ok in Hy; lia).
  destruct (getStartOfWeekOffset_weekday st (weekday_of_day F)) as (off & Eoff & Hoff & Hstart).
  { unfold weekday_of_day. zlia. }
  exists off. split; [done|]. split.
  { unfold weekday_of_day in *. rewrite <- Hstart. zlia. }
  unfold renderDayGrid. fold y m.
  destruct (dayGridClamps st) as [mn mx].
  assert (Efirst : newDate (Date_UTC (Some y) (Some m) (Some 1)) = mkDate (Some (ES.msPerDay * F))).
  { rewrite Date_UTC_Some, MakeFullYear_id by done. fold F.
    destruct (HF 0 ltac:(lia)) as [Hr _]. rewrite Z.add_0_r in Hr.
    rewrite TimeClip_in_range by by apply day_in_range_abs. by apply newDate_whole. }
  rewrite Efirst.
  change (getUTCDay (mkDate (Some (ES.msPerDay * F)))) with (Some (ES.WeekDay (ES.msPerDay * F))).
  assert (Ew : ES.WeekDay (ES.msPerDay * F) = weekday_of_day F).
  { unfold ES.WeekDay. by rewrite Day_whole. }
  rewrite Ew, Eoff. cbn [num_sub mbind option_bind].
  assert (Ecell : newDate (Date_UTC (Some y) (Some m) (Some (1 - off)))
                  = mkDate (Some (ES.msPerDay * (F - off)))).
  { rewrite Date_UTC_Some, MakeFullYear_id by done.
    replace (1 - off) with (1 + - off) by lia. rewrite MakeDay_shift. fold F.
    replace (F + - off) with (F - off) by lia.
    destruct (HF (- off) ltac:(lia)) as [Hr _]. replace (F + - off) with (F - off) in Hr by lia.
    rewrite TimeClip_in_range by by apply day_in_range_abs. by apply newDate_whole. }
  rewrite Ecell.
  apply list_fmap_ext. intros j i Hi. apply lookup_seqZ in Hi as [-> Hj].
  set (i := 0 + Z.of_nat j) in *. cbv zeta.
  destruct (HF (- off) ltac:(lia)) as [_ Hy0]. replace (F + - off) with (F - off) in Hy0 by lia.
  destruct (HF (- off + i) ltac:(lia)) as [Hri Hyi].
  replace (F + (- off + i)) with (F - off + i) in Hri, Hyi by lia.
  rewrite Date_UTC_day_shift by (done || lia).
  set (d := F - off + i) in *.
  pose proof (getISOWeek_of_day d Hyi) as Ew'.
  change (getUTCDate (mkDate (Some (ES.msPerDay * d))))
    with (Some (ES.DateFromTime (ES.msPerDay * d))) .
  change (getUTCMonth (mkDate (Some (ES.msPerDay * d))))
    with (Some (ES.MonthFromTime (ES.msPerDay * d))) .
  change (getUTCFullYear (mkDate (Some (ES.msPerDay * d))))
    with (Some (ES.YearFromTime (ES.msPerDay * d))) .
  apply DayCell_eq.
  - rewrite <- atUTC_time. apply atUTC_whole_day; [done|lia].
  - exact eq_refl.
  - apply bool_decide_ext. split; [by intros [= ->]|by intros ->].
  - exact Ew'.
Qed.

(** X21: on the cursor years -271818 to -3 and 102 to 275758 the day grid
    is the calendar: 42 consecutive days, the first one on the configured
    first day of the week and at most six days before the first of the
    cursor month; each cell has the UTC midnight of its day as key, shows
    its day of the month, is marked in-month when its month is the cursor
    month, carries the ISO week number when it opens a row and week numbers
    are on, and is enabled exactly when its key is selectable. *)
Theorem day_grid_is_six_weeks_of_consecutive_days st :
  0 ≤ cursorMonth st ≤ 11 → grid_year_ok (cursorYear st) →
  ∃ off, 0 ≤ off ≤ 6
    ∧ weekday_of_day (ES.MakeDay (cursorYear st) (cursorMonth st) 1 - off) = week_start_day st
    ∧ renderDayGrid st
      = (λ i : Z,
           let d := ES.MakeDay (cursorYear st) (cursorMonth st) 1 - off + i in
           let k := Some (ES.msPerDay * d) in
           {| cellKey := k;
              cellText := Some (ES.DateFromTime (ES.msPerDay * d));
              inMonth := bool_decide (ES.MonthFromTime (ES.msPerDay * d) = cursorMonth st);
              weekNum := if showWeekNumbers (settings st) && (i mod 7 =? 0)
                         then Some (Some (iso_week d)) else None;
              isDataDate := set_has k (selectableKeys st);
              isSelected := set_has k (selectedKeys st) |}) <$> seqZ 0 42.
Proof. apply renderDayGrid_cells. Qed.

Lemma day_grid_is_six_weeks_of_consecutive_days_witness :
  ∃ off, 0 ≤ off ≤ 6
    ∧ weekday_of_day (ES.MakeDay (cursorYear (opened "Sales.Date" [3; 4; 5]))
                                 (cursorMonth (opened "Sales.Date" [3; 4; 5])) 1 - off)
      = week_start_day (opened "Sales.Date" [3; 4; 5])
    ∧ renderDayGrid (opened "Sales.Date" [3; 4; 5])
      = (λ i : Z,
           let d := ES.MakeDay (cursorYear (opened "Sales.Date" [3; 4; 5]))
                               (cursorMonth (opened "Sales.Date" [3; 4; 5])) 1 - off + i in
           let k := Some (ES.msPerDay * d) in
           {| cellKey := k;
              cellText := Some (ES.DateFromTime (ES.msPerDay * d));
              inMonth := bool_decide (ES.MonthFromTime (ES.msPerDay * d)
                                      = cursorMonth (opened "Sales.Date" [3; 4; 5]));
              weekNum := if showWeekNumbers (settings (opened "Sales.Date" [3; 4; 5]))
                            && (i mod 7 =? 0)
                         then Some (Some (iso_week d)) else None;
              isDataDate := set_has k (selectableKeys (opened "Sales.Date" [3; 4; 5]));
              isSelected := set_has k (selectedKeys (opened "Sales.Date" [3; 4; 5])) |})
        <$> seqZ 0 42.
Proof.
  apply (day_grid_is_six_weeks_of_consecutive_days (opened "Sales.Date" [3; 4; 5])).
  - vm_compute. split; discriminate.
  - right. vm_compute. split; discriminate.
Defined.

(** X22: on those cursor years every day of the cursor month has its cell
    in the grid, among the first 37: the cell's key is the UTC midnight of
    that day, it shows the day's number, is marked in-month, and is enabled
    exactly when the day is selectable. *)
Theorem day_grid_shows_every_day_of_the_month st dd :
  0 ≤ cursorMonth st ≤ 11 → grid_year_ok (cursorYear st) →
  1 ≤ dd ≤ days_in_month (cursorYear st) (cursorMonth st + 1) →
  ∃ i c, renderDayGrid st !! i = Some c ∧ (i < 37)%nat
    ∧ cellKey c = day_key (cursorYear st) (cursorMonth st + 1) dd
    ∧ cellText c = Some dd
    ∧ inMonth c = true
    ∧ isDataDate c
      = set_has (day_key (cursorYear st) (cursorMonth st + 1) dd) (selectableKeys st).
Proof.
  intros Hm Hy Hd.
  destruct (renderDayGrid_cells st Hm Hy) as (off & Hoff & _ & ->).
  assert (Hdd : dd ≤ 31).
  { revert Hd. unfold days_in_month. repeat case_match; lia. }
  assert (Hv : valid_calendar_date (cursorYear st) (cursorMonth st + 1) dd) by (split; lia).
  destruct (fields_of_day_number _ _ _ Hv) as (_ & HM & HD).
  assert (E : ES.MakeDay (cursorYear st) (cursorMonth st) 1 - off + (off + dd - 1)
              = day_number (cursorYear st) (cursorMonth st + 1) dd).
  { unfold day_number. replace (cursorMonth st + 1 - 1) with (cursorMonth st) by lia.
    unfold ES.MakeDay. lia. }
  exists (Z.to_nat (off + dd - 1)). eexists. split_and!.
  - rewrite list_lookup_fmap.
    rewrite (proj2 (lookup_seqZ 0 42 (Z.to_nat (off + dd - 1)) (off + dd - 1))) by lia.
    reflexivity.
  - lia.
  - cbn [cellKey]. by rewrite E.
  - cbn [cellText]. by rewrite E, HD.
  - cbn [inMonth]. rewrite E, HM. apply bool_decide_eq_true_2. lia.
  - cbn [isDataDate]. by rewrite E.
Qed.

Lemma day_grid_shows_every_day_of_the_month_witness :
  ∃ i c, renderDayGrid (opened "Sales.Date" [3; 4; 5]) !! i = Some c ∧ (i < 37)%nat
    ∧ cellKey c = day_key (cursorYear (opened "Sales.Date" [3; 4; 5]))
                          (cursorMonth (opened "Sales.Date" [3; 4; 5]) + 1) 31
    ∧ cellText c = Some 31
    ∧ inMonth c = true
    ∧ isDataDate c
      = set_has (day_key (cursorYear (opened "Sales.Date" [3; 4; 5]))
                         (cursorMonth (opened "Sales.Date" [3; 4; 5]) + 1) 31)
                (selectableKeys (opened "Sales.Date" [3; 4; 5])).
Proof.
  apply (day_grid_shows_every_day_of_the_month (opened "Sales.Date" [3; 4; 5]) 31).
  - vm_compute. split; discriminate.
  - right. vm_compute. split; discriminate.
  - vm_compute. split; discriminate.
Defined.

(** ** The cursor through the events *)

Lemma applyFilterForKeys_cursor keys additive st :
  cursorMonth (applyFilterForKeys keys additive st).1 = cursorMonth st
  ∧ cursorYear (applyFilterForKeys keys additive st).1 = cursorYear st
  ∧ viewMode (applyFilterForKeys keys additive st).1 = viewMode st.
Proof. unfold applyFilterForKeys. by destruct (filterTarget st). Qed.

Lemma handleClickDate_cursor key ev st :
  cursorMonth (handleClickDate key ev st).1 = cursorMonth st
  ∧ cursorYear (handleClickDate key ev st).1 = cursorYear st
  ∧ viewMode (handleClickDate key ev st).1 = viewMode st.
Proof.
  unfold handleClickDate.
  repeat match goal with
  | |- context [if ?b then _ else _] => destruct b
  | |- context [applyFilterForKeys ?k ?a ?s] =>
      pose proof (applyFilterForKeys_cursor k a s) as (?&?&?);
      destruct (applyFilterForKeys k a s) as [st' calls]
  end; simpl in *; auto.
Qed.

Lemma step_cursorMonth op st :
  clock_ok op → 0 ≤ cursorMonth st ≤ 11 → 0 ≤ cursorMonth (step op st).1 ≤ 11.
Proof.
  intros Hop Hm. destruct op as [today o dv|i ev| |fw| |i]; cbn [step].
  - unfold update. cbn [fst]. destruct dv as [cat|]; [|exact Hop].
    unfold loadData.
    match goal with |- context [loadRows 0 ?vs ?s] =>
      destruct (loadRows_selection 0 vs s) as (_ & _ & _ & _ & _ & ->) end.
    exact Hm.
  - destruct (viewMode st); try done.
    destruct (renderDayGrid st !! i) as [c|]; [|done].
    unfold clickCell. destruct (isDataDate c); [|done].
    by destruct (handleClickDate_cursor (cellKey c) ev st) as (-> & _).
  - exact Hm.
  - cbn [fst]. unfold navButton, shiftMonth, shiftYear.
    destruct (viewMode st), fw; cbn [cursorMonth with_view]; try done; zlia.
  - exact Hm.
  - destruct (bool_decide_reflect (i < 12)%nat); [|done].
    destruct (viewMode st); cbn [fst clickMonthCell clickYearCell cursorMonth with_view];
      try done; lia.
Qed.

Lemma run_cursorMonth ops st :
  Forall clock_ok ops → 0 ≤ cursorMonth st ≤ 11 → 0 ≤ cursorMonth (run ops st).1 ≤ 11.
Proof.
  revert st. induction ops as [|op ops IH]; intros st Hops Hm; cbn [run]; [done|].
  apply Forall_cons in Hops as [Hop Hops].
  pose proof (step_cursorMonth op st Hop Hm) as H1. destruct (step op st) as [st1 calls1].
  pose proof (IH st1 Hops H1) as H2. by destruct (run ops st1) as [st2 calls2].
Qed.

(** X23: the cursor month stays a month.  From a state whose cursor month
    is in 0..11 (the visual starts on the clock's month), no sequence of
    updates, clicks, clears and navigation takes it out of 0..11, as long as
    the clock of every update gives a month 0..11. *)
Theorem cursor_month_stays_in_0_11 ops st :
  Forall clock_ok ops → 0 ≤ cursorMonth st ≤ 11 →
  0 ≤ cursorMonth (run ops st).1 ≤ 11.
Proof. apply run_cursorMonth. Qed.

Lemma cursor_month_stays_in_0_11_witness :
  0 ≤ cursorMonth (run [OpNav false; OpNav false; OpNav false; OpCycleView; OpClickGrid 7;
                        OpUpdate (2025, 0) no_objects None]
                       (opened "Sales.Date" [3; 4; 5])).1 ≤ 11.
Proof.
  apply (cursor_month_stays_in_0_11
           [OpNav false; OpNav false; OpNav false; OpCycleView; OpClickGrid 7;
            OpUpdate (2025, 0) no_objects None]
           (opened "Sales.Date" [3; 4; 5])).
  - repeat constructor; vm_compute; discriminate.
  - vm_compute. split; discriminate.
Defined.

(** X24: the previous and next buttons undo each other in every view, once
    the cursor month is in 0..11: a month back and forth in day view, a year
    in month view, twelve years in year view.  The mode button goes round
    day, month, year in three clicks. *)
Theorem navigation_buttons_undo_each_other st :
  0 ≤ cursorMonth st ≤ 11 →
  navButton false (navButton true st) = st
  ∧ navButton true (navButton false st) = st
  ∧ cycleView (cycleView (cycleView st)) = st
  ∧ viewMode (cycleView st) ≠ viewMode st.
Proof.
  intros Hm. destruct st as [vm cy cm sel lc se ss dr ids sk mn mx ft].
  cbn [cursorMonth] in Hm.
  unfold navButton, cycleView, shiftMonth, shiftYear, with_view.
  destruct vm; cbn; split_and!; try done; f_equal; zlia.
Qed.

Lemma navigation_buttons_undo_each_other_witness :
  navButton false (navButton true (with_view view_day 2024 11 (opened "Sales.Date" [3; 4; 5])))
  = with_view view_day 2024 11 (opened "Sales.Date" [3; 4; 5])
  ∧ navButton true (navButton false (with_view view_day 2024 11 (opened "Sales.Date" [3; 4; 5])))
    = with_view view_day 2024 11 (opened "Sales.Date" [3; 4; 5])
  ∧ cycleView (cycleView (cycleView (with_view view_day 2024 11 (opened "Sales.Date" [3; 4; 5]))))
    = with_view view_day 2024 11 (opened "Sales.Date" [3; 4; 5])
  ∧ viewMode (cycleView (with_view view_day 2024 11 (opened "Sales.Date" [3; 4; 5])))
    ≠ viewMode (with_view view_day 2024 11 (opened "Sales.Date" [3; 4; 5])).
Proof.
  apply (navigation_buttons_undo_each_other
           (with_view view_day 2024 11 (opened "Sales.Date" [3; 4; 5]))).
  vm_compute. split; discriminate.
Defined.

(** X25: the walk of the range branch ends: it makes no more turns than
    there are days from the cursor's day to the end date's, plus one, so more
    fuel changes nothing, and it collects no more keys than turns.  With an
    invalid date at either end it makes no turn at all. *)
Theorem range_walk_ends_within_the_days_between n sel c e keys :
  rangeWalk (rangeFuel c e + n) sel c e keys = rangeWalk (rangeFuel c e) sel c e keys
  ∧ (length (rangeWalk (rangeFuel c e) sel c e keys) ≤ length keys + rangeFuel c e)%nat
  ∧ (atUTC c = NaN ∨ atUTC e = NaN → rangeWalk n sel c e keys = keys).
Proof.
  split_and!.
  - apply rangeWalk_fuel_enough.
  - generalize (rangeFuel c e). intros fuel. revert c keys.
    induction fuel as [|fuel IH]; intros c keys; cbn [rangeWalk]; [lia|].
    destruct (num_le (atUTC c) (atUTC e)); [|lia].
    etrans; [apply IH|]. destruct (set_has _ _); rewrite ?length_app; cbn; lia.
  - intros H. apply rangeWalk_stop.
    destruct H as [-> | ->]; [done|]. by destruct (atUTC c).
Qed.
